(** * PiJuice-MQTT: a shallow embedding of [pijuicemqtt.py]

    The program samples a PiJuice UPS hat and publishes the readings to an
    MQTT broker.  It is a handful of callbacks over three external
    collaborators (the PiJuice I2C library, the paho MQTT client and
    [threading.Timer]).  The embedding keeps the shape of the script:

    - Python values are a small inductive type; dictionaries are
      association lists in insertion order, because [json.dumps] prints
      them in that order;
    - every call on a collaborator is recorded as an [event] in a trace,
      and Python exceptions are an error result, so each callback is a
      computation in a trace-and-exception monad;
    - the process itself (main program, timer firings, connection
      acknowledgements, termination signals) is a step function on a
      small state.  *)

From Stdlib Require Import String Ascii List ZArith Lia Bool.
From Stdlib Require DecimalString.
Import ListNotations.
Set Warnings "-register-all".
Local Open Scope string_scope.
Local Open Scope Z_scope.

(** ** Python values *)

(** The values that [yaml.safe_load] and the PiJuice library hand to the
    script.  Strings hold the UTF-8 encoding of the Python text.  A float
    is kept as the decimal [m * 10^e] it was produced from: the script only
    makes floats by dividing by 1000, and for up to 15 significant digits
    the double nearest to such a decimal prints back as that decimal. *)
Inductive value : Type :=
| VNone
| VBool (b : bool)
| VInt (z : Z)
| VFloat (m e : Z)
| VStr (s : string)
| VList (l : list value)
| VDict (d : list (string * value)).

Definition dict : Type := list (string * value).

(** Exceptions the script can meet. *)
Inductive exn : Type :=
| KeyError
| TypeError
| ValueError
| AttributeError
| SystemExit (code : Z).

(** *** Dictionaries *)

Fixpoint dict_get (d : dict) (k : string) : option value :=
  match d with
  | [] => None
  | (k', v) :: d' => if String.eqb k k' then Some v else dict_get d' k
  end.

Definition dict_mem (d : dict) (k : string) : bool :=
  match dict_get d k with Some _ => true | None => false end.

(** [d[k] = v]: an existing key keeps its position, a new key goes last. *)
Fixpoint dict_set (d : dict) (k : string) (v : value) : dict :=
  match d with
  | [] => [(k, v)]
  | (k', v') :: d' =>
      if String.eqb k k' then (k', v) :: d' else (k', v') :: dict_set d' k v
  end.

(** [{**a, **b}]: the items of [b] are stored into a copy of [a] one by
    one.  Only the top level is merged: a value of [b] replaces the value
    of [a] under the same key as a whole. *)
Definition dict_merge (a b : dict) : dict :=
  fold_left (fun acc kv => dict_set acc (fst kv) (snd kv)) b a.

(** *** Truth value, subscription *)

Definition truthy (v : value) : bool :=
  match v with
  | VNone => false
  | VBool b => b
  | VInt z => negb (z =? 0)
  | VFloat m _ => negb (m =? 0)
  | VStr s => negb (String.eqb s "")
  | VList l => match l with [] => false | _ => true end
  | VDict d => match d with [] => false | _ => true end
  end.

(** [v[k]] for a string key [k]. *)
Definition getitem (v : value) (k : string) : exn + value :=
  match v with
  | VDict d => match dict_get d k with Some x => inr x | None => inl KeyError end
  | _ => inl TypeError
  end.

(** *** Numbers as text *)

Definition string_of_Z (z : Z) : string := DecimalString.NilZero.string_of_int (Z.to_int z).

Fixpoint zeros (n : nat) : string :=
  match n with O => "" | S n' => String "0" (zeros n') end.

(** Significant digits of a positive mantissa: the trailing zeros go to the
    exponent. *)
Fixpoint strip_zeros_rev (s : list ascii) : list ascii * nat :=
  match s with
  | "0"%char :: s' => let (r, n) := strip_zeros_rev s' in (r, S n)
  | _ => (s, O)
  end.

Definition significand (m : Z) : string * nat :=
  let ds := list_ascii_of_string (string_of_Z (Z.abs m)) in
  let (r, n) := strip_zeros_rev (rev ds) in
  (string_of_list_ascii (rev r), n).

Definition string_take (n : nat) (s : string) : string := substring 0 n s.
Definition string_drop (n : nat) (s : string) : string :=
  substring n (String.length s - n) s.

(** [repr] of a float, CPython's shortest-digits format: positional notation
    while the decimal point sits within [-4 < decpt <= 16], exponent notation
    otherwise. *)
Definition float_repr (m e : Z) : string :=
  if m =? 0 then "0.0" else
  let sign := if m <? 0 then "-" else "" in
  let (ds, tz) := significand m in
  let n := Z.of_nat (String.length ds) in
  let decpt := n + e + Z.of_nat tz in
  if (decpt <=? -4) || (16 <? decpt) then
    let x := decpt - 1 in
    let xs := string_of_Z (Z.abs x) in
    let xs := if Z.abs x <? 10 then "0" ++ xs else xs in
    let frac := string_drop 1 ds in
    sign ++ string_take 1 ds
         ++ (if String.eqb frac "" then "" else "." ++ frac)
         ++ "e" ++ (if x <? 0 then "-" else "+") ++ xs
  else if decpt <=? 0 then
    sign ++ "0." ++ zeros (Z.to_nat (- decpt)) ++ ds
  else if decpt <? n then
    sign ++ string_take (Z.to_nat decpt) ds ++ "." ++ string_drop (Z.to_nat decpt) ds
  else
    sign ++ ds ++ zeros (Z.to_nat (decpt - n)) ++ ".0".

(** [x / 1000]: true division, always a float. *)
Definition truediv1000 (v : value) : exn + value :=
  match v with
  | VInt z => inr (VFloat z (-3))
  | VBool b => inr (VFloat (if b then 1 else 0) (-3))
  | VFloat m e => inr (VFloat m (e - 3))
  | _ => inl TypeError
  end.

(** *** Text: UTF-8, JSON strings, [repr] *)

Definition code (a : ascii) : Z := Z.of_nat (nat_of_ascii a).
Definition chr (n : Z) : ascii := ascii_of_nat (Z.to_nat n).
Definition str1 (n : Z) : string := String (chr n) "".

Definition dquote : string := str1 34.
Definition backslash : string := str1 92.

Definition cont (a : ascii) : Z := Z.land (code a) 63.

(** Code points of a UTF-8 text.  A byte that does not start a well-formed
    sequence (never the case for text that came from Python) stands for
    itself. *)
Fixpoint utf8_decode (s : string) : list Z :=
  match s with
  | EmptyString => []
  | String a s1 =>
      let b := code a in
      if b <? 192 then b :: utf8_decode s1 else
      match s1 with
      | EmptyString => [b]
      | String a1 s2 =>
          if b <? 224 then
            Z.lor (Z.shiftl (Z.land b 31) 6) (cont a1) :: utf8_decode s2
          else
          match s2 with
          | EmptyString => b :: utf8_decode s1
          | String a2 s3 =>
              if b <? 240 then
                Z.lor (Z.shiftl (Z.land b 15) 12)
                      (Z.lor (Z.shiftl (cont a1) 6) (cont a2)) :: utf8_decode s3
              else
              match s3 with
              | EmptyString => b :: utf8_decode s1
              | String a3 s4 =>
                  Z.lor (Z.shiftl (Z.land b 7) 18)
                        (Z.lor (Z.shiftl (cont a1) 12)
                               (Z.lor (Z.shiftl (cont a2) 6) (cont a3)))
                    :: utf8_decode s4
              end
          end
      end
  end.

Definition hex_digit (n : Z) : string :=
  str1 (if n <? 10 then 48 + n else 87 + n).

Definition hex2 (n : Z) : string :=
  hex_digit (Z.land (Z.shiftr n 4) 15) ++ hex_digit (Z.land n 15).

Definition hex4 (n : Z) : string :=
  hex2 (Z.land (Z.shiftr n 8) 255) ++ hex2 (Z.land n 255).

(** One code point inside a JSON string, [ensure_ascii=True]: everything
    outside [' ' .. '~'] is escaped, above the basic plane as a surrogate
    pair. *)
Definition json_escape (cp : Z) : string :=
  if cp =? 34 then backslash ++ dquote
  else if cp =? 92 then backslash ++ backslash
  else if cp =? 10 then backslash ++ "n"
  else if cp =? 13 then backslash ++ "r"
  else if cp =? 9 then backslash ++ "t"
  else if cp =? 12 then backslash ++ "f"
  else if cp =? 8 then backslash ++ "b"
  else if (32 <=? cp) && (cp <=? 126) then str1 cp
  else if cp <? 65536 then backslash ++ "u" ++ hex4 cp
  else
    let n := cp - 65536 in
    backslash ++ "u" ++ hex4 (Z.lor 55296 (Z.land (Z.shiftr n 10) 1023))
      ++ backslash ++ "u" ++ hex4 (Z.lor 56320 (Z.land n 1023)).

Definition json_string (s : string) : string :=
  dquote ++ String.concat "" (map json_escape (utf8_decode s)) ++ dquote.

(** [json.dumps] with its default separators; keys in insertion order. *)
Fixpoint dumps (v : value) : string :=
  match v with
  | VNone => "null"
  | VBool b => if b then "true" else "false"
  | VInt z => string_of_Z z
  | VFloat m e => float_repr m e
  | VStr s => json_string s
  | VList l => "[" ++ String.concat ", " (map dumps l) ++ "]"
  | VDict d =>
      "{" ++ String.concat ", "
               (map (fun kv : string * value => let (k, x) := kv in json_string k ++ ": " ++ dumps x) d)
          ++ "}"
  end.

Fixpoint string_mem (c : ascii) (s : string) : bool :=
  match s with
  | EmptyString => false
  | String a s' => Ascii.eqb a c || string_mem c s'
  end.

(** [repr] of a [str]: single quotes unless the text holds a single quote
    and no double quote; bytes of non-ASCII characters are kept. *)
Definition repr_char (q : Z) (a : ascii) : string :=
  let c := code a in
  if c =? 92 then backslash ++ backslash
  else if c =? q then backslash ++ str1 q
  else if c =? 10 then backslash ++ "n"
  else if c =? 13 then backslash ++ "r"
  else if c =? 9 then backslash ++ "t"
  else if (c <? 32) || (c =? 127) then backslash ++ "x" ++ hex2 c
  else String a "".

Definition repr_str (s : string) : string :=
  let q := if string_mem (chr 39) s && negb (string_mem (chr 34) s) then 34 else 39 in
  str1 q ++ String.concat "" (map (repr_char q) (list_ascii_of_string s)) ++ str1 q.

Fixpoint py_repr (v : value) : string :=
  match v with
  | VNone => "None"
  | VBool b => if b then "True" else "False"
  | VInt z => string_of_Z z
  | VFloat m e => float_repr m e
  | VStr s => repr_str s
  | VList l => "[" ++ String.concat ", " (map py_repr l) ++ "]"
  | VDict d =>
      "{" ++ String.concat ", "
               (map (fun kv : string * value => let (k, x) := kv in repr_str k ++ ": " ++ py_repr x) d)
          ++ "}"
  end.

(** [str(v)], which is what a replacement field of an f-string prints. *)
Definition py_str (v : value) : string :=
  match v with
  | VStr s => s
  | _ => py_repr v
  end.

(** *** [int(v)] *)

Definition is_space (a : ascii) : bool :=
  let c := code a in ((9 <=? c) && (c <=? 13)) || ((28 <=? c) && (c <=? 32)).

Fixpoint lstrip (s : string) : string :=
  match s with
  | EmptyString => EmptyString
  | String a s' => if is_space a then lstrip s' else s
  end.

Definition string_rev (s : string) : string :=
  string_of_list_ascii (rev (list_ascii_of_string s)).

Definition strip (s : string) : string :=
  string_rev (lstrip (string_rev (lstrip s))).

(** Decimal digits, single underscores allowed between digits. *)
Fixpoint parse_digits (s : string) (acc : Z) (after_digit : bool) : option Z :=
  match s with
  | EmptyString => if after_digit then Some acc else None
  | String a s' =>
      let c := code a in
      if (48 <=? c) && (c <=? 57) then parse_digits s' (10 * acc + (c - 48)) true
      else if (c =? 95) && after_digit then parse_digits s' acc false
      else None
  end.

Definition int_of_string (s : string) : option Z :=
  match strip s with
  | String "-" s' => option_map Z.opp (parse_digits s' 0 false)
  | String "+" s' => parse_digits s' 0 false
  | s' => parse_digits s' 0 false
  end.

Definition py_int (v : value) : exn + Z :=
  match v with
  | VInt z => inr z
  | VBool b => inr (if b then 1 else 0)
  | VFloat m e => inr (if 0 <=? e then m * 10 ^ e else Z.quot m (10 ^ (- e)))
  | VStr s => match int_of_string s with Some z => inr z | None => inl ValueError end
  | _ => inl TypeError
  end.

(** [k in v] for a string [k]. *)
Fixpoint prefixb (p s : string) : bool :=
  match p, s with
  | EmptyString, _ => true
  | String a p', String b s' => Ascii.eqb a b && prefixb p' s'
  | String _ _, EmptyString => false
  end.

Fixpoint substringb (p s : string) : bool :=
  prefixb p s ||
  match s with
  | EmptyString => false
  | String _ s' => substringb p s'
  end.

Definition contains (v : value) (k : string) : exn + bool :=
  match v with
  | VDict d => inr (dict_mem d k)
  | VStr s => inr (substringb k s)
  | VList l =>
      inr (existsb (fun x => match x with VStr s => String.eqb s k | _ => false end) l)
  | _ => inl TypeError
  end.

(** ** Collaborators and effects *)

(** The calls of the PiJuice library the script makes. *)
Inductive getter : Type :=
| GetStatus
| GetChargeLevel
| GetBatteryVoltage
| GetBatteryCurrent
| GetBatteryTemperature
| GetIoVoltage
| GetIoCurrent
| GetBatteryProfile
| GetFirmwareVersion.

(** What the hat answers to each call while one callback runs. *)
Definition pijuice_io : Type := getter -> value.

(** The observable actions of the script, in the order it performs them. *)
Inductive event : Type :=
| TimerStart (interval : value)
| TimerCancel
| TimerJoin
| UsernamePwSet (username password : value)
| Connect (host port : value) (keepalive : Z)
| SignalHandler (signum : Z)
| WillSet (topic payload : string) (qos : Z) (retain : bool)
| Publish (topic payload : string) (qos : Z) (retain : bool)
| Call (g : getter)
| Print (line : string).

(** The [threading.Timer] held in the global [timer_thread], as the script
    sees it: [Waiting] once [start()] was called on it and as long as
    [cancel()] was not, [Cancelled] after [cancel()].  Whether the thread of
    a started timer will call its function is a matter of the interval it
    was made with, see [armed] below. *)
Inductive timer : Type :=
| Waiting
| Cancelled.

(** A computation performs events and then returns or raises. *)
Definition io (A : Type) : Type := (list event * (exn + A))%type.

Definition ret {A : Type} (a : A) : io A := ([], inr a).

Definition bind {A B : Type} (m : io A) (f : A -> io B) : io B :=
  match m with
  | (t, inl e) => (t, inl e)
  | (t, inr a) => let (t', r) := f a in ((t ++ t')%list, r)
  end.

Definition emit (e : event) : io unit := ([e], inr tt).
Definition raise {A : Type} (e : exn) : io A := ([], inl e).
Definition lift {A : Type} (r : exn + A) : io A := ([], r).

(** [try: body except KeyError: handler] *)
Definition try_except_KeyError (body handler : io unit) : io unit :=
  match body with
  | (t, inl KeyError) => let (t', r) := handler in ((t ++ t')%list, r)
  | _ => body
  end.

Definition trace {A : Type} (m : io A) : list event := fst m.
Definition outcome {A : Type} (m : io A) : exn + A := snd m.

Declare Scope io_scope.
Delimit Scope io_scope with io.
Notation "x <- c1 ;; c2" := (bind c1 (fun x => c2))
  (at level 61, c1 at next level, right associativity) : io_scope.
Notation "c1 ;; c2" := (bind c1 (fun _ => c2))
  (at level 61, right associativity) : io_scope.
Local Open Scope io_scope.

(** [pijuice.status.GetX()] *)
Definition call (pijuice : pijuice_io) (g : getter) : io value :=
  emit (Call g) ;; ret (pijuice g).

Definition item (v : value) (k : string) : io value := lift (getitem v k).

Definition print (line : string) : io unit := emit (Print line).

(** [client.publish(topic, payload, qos=0, retain=False)] and
    [client.will_set]: the transport is a collaborator, its own failures
    are not part of the script. *)
Definition publish (topic payload : string) (qos : Z) (retain : bool) : io unit :=
  emit (Publish topic payload qos retain).

Definition will_set (topic payload : string) (qos : Z) (retain : bool) : io unit :=
  emit (WillSet topic payload qos retain).

(** ** The script *)

Definition SERVICE_NAME : string := "pijuicemqtt".

(** The defaults of [load_config]; [node] is [platform.node()]. *)
Definition default_config (node : string) : dict :=
  [ ("mqtt", VDict [ ("broker", VStr "127.0.0.1");
                     ("port", VInt 1883);
                     ("username", VNone);
                     ("password", VNone) ]);
    ("homeassistant", VDict [ ("topic", VStr "homeassistant");
                              ("sensor", VBool true) ]);
    ("publish_period", VInt 30);
    ("hostname", VStr node) ].

(** [load_config]: [config_override] is what [yaml.safe_load] read from the
    file.  Unpacking anything but a mapping with [**] is a [TypeError]. *)
Definition load_config (node : string) (config_override : value) : exn + dict :=
  match config_override with
  | VDict override => inr (dict_merge (default_config node) override)
  | _ => inl TypeError
  end.

Section Script.

(** The process-wide [config], and [pijuice.__version__]. *)
Variable config : dict.
Variable library_version : string.

Definition config_item (k : string) : io value := item (VDict config) k.

Definition service_topic (hostname : value) : string :=
  SERVICE_NAME ++ "/" ++ py_str hostname ++ "/service".

Definition status_topic (hostname : value) : string :=
  SERVICE_NAME ++ "/" ++ py_str hostname ++ "/status".

(** The topic of one autodiscovery document. *)
Definition discovery_topic (topic hostname : value) (platform sensor : string) : string :=
  py_str topic ++ "/" ++ platform ++ "/" ++ SERVICE_NAME ++ "-" ++ py_str hostname
    ++ "/" ++ sensor ++ "/config".

Definition base_payload (hostname battery_capacity firmware_version : value) : dict :=
  [ ("availability_topic", VStr (service_topic hostname));
    ("payload_available", VStr "online");
    ("payload_not_available", VStr "offline");
    ("state_topic", VStr (status_topic hostname));
    ("json_attributes_topic", VStr (status_topic hostname));
    ("device", VDict
       [ ("identifiers", VList [VStr (SERVICE_NAME ++ "-" ++ py_str hostname)]);
         ("name", VStr (py_str hostname ++ " PiJuice"));
         ("sw_version", VStr ("Library " ++ library_version ++ ", Firmware "
                                ++ py_str firmware_version));
         ("model", VStr ("PiJuice " ++ py_str battery_capacity ++ " mAh"));
         ("manufacturer", VStr "PiSupply") ]) ].

Definition payload_batteryCharge (hostname : value) : dict :=
  [ ("name", VStr (py_str hostname ++ " PiJuice Battery"));
    ("unique_id", VStr (SERVICE_NAME ++ "-" ++ py_str hostname ++ "-batteryCharge"));
    ("value_template", VStr "{{ value_json.batteryCharge }}");
    ("device_class", VStr "battery");
    ("unit_of_measurement", VStr "%") ].

Definition payload_powerInput5vIo (hostname : value) : dict :=
  [ ("name", VStr (py_str hostname ++ " PiJuice PowerInput5vIo"));
    ("unique_id", VStr (SERVICE_NAME ++ "-" ++ py_str hostname ++ "-powerInput5vIo"));
    ("value_template", VStr "{{ value_json.powerInput5vIo }}");
    ("payload_off", VStr "NOT_PRESENT");
    ("payload_on", VStr "PRESENT");
    ("device_class", VStr "power") ].

Definition payload_batteryTemperature (hostname : value) : dict :=
  [ ("name", VStr (py_str hostname ++ " PiJuice BatteryTemperature"));
    ("unique_id", VStr (SERVICE_NAME ++ "-" ++ py_str hostname ++ "-batteryTemperature"));
    ("value_template", VStr "{{ value_json.batteryTemperature }}");
    ("device_class", VStr "temperature");
    ("unit_of_measurement", VStr "°C");
    ("enabled_by_default", VBool false);
    ("entity_category", VStr "diagnostic") ].

Definition payload_batteryStatus (hostname : value) : dict :=
  [ ("name", VStr (py_str hostname ++ " PiJuice BatteryStatus"));
    ("unique_id", VStr (SERVICE_NAME ++ "-" ++ py_str hostname ++ "-batteryStatus"));
    ("value_template", VStr "{{ value_json.batteryStatus }}");
    ("enabled_by_default", VBool false);
    ("entity_category", VStr "diagnostic") ].

(** One [client.publish(f"{config['homeassistant']['topic']}/...",
    dumps({**base_payload, **payload}), qos=1, retain=True)]. *)
Definition publish_autoconfig (base payload : dict) (platform sensor : string) : io unit :=
  homeassistant <- config_item "homeassistant" ;;
  topic <- item homeassistant "topic" ;;
  hostname <- config_item "hostname" ;;
  publish (discovery_topic topic hostname platform sensor)
          (dumps (VDict (dict_merge base payload))) 1 true.

(** The Home Assistant part of [mqtt_on_connect], the body of
    [if config["homeassistant"]["sensor"]:]. *)
Definition autoconfig (pijuice : pijuice_io) : io unit :=
  print "Publishing Home Assistant MQTT autoconfig" ;;
  profile <- call pijuice GetBatteryProfile ;;
  profile_data <- item profile "data" ;;
  battery_capacity <- item profile_data "capacity" ;;
  firmware <- call pijuice GetFirmwareVersion ;;
  firmware_data <- item firmware "data" ;;
  firmware_version <- item firmware_data "version" ;;
  hostname <- config_item "hostname" ;;
  let base := base_payload hostname battery_capacity firmware_version in
  homeassistant <- config_item "homeassistant" ;;
  has_expire <- lift (contains homeassistant "expire_after") ;;
  base <- (if has_expire : bool then
             homeassistant <- config_item "homeassistant" ;;
             expire_after <- item homeassistant "expire_after" ;;
             n <- lift (py_int expire_after) ;;
             ret (dict_set base "expire_after" (VInt n))
           else ret base) ;;
  hostname <- config_item "hostname" ;;
  publish_autoconfig base (payload_batteryCharge hostname) "sensor" "batteryCharge" ;;
  hostname <- config_item "hostname" ;;
  publish_autoconfig base (payload_powerInput5vIo hostname)
                     "binary_sensor" "powerInput5vIo" ;;
  hostname <- config_item "hostname" ;;
  publish_autoconfig base (payload_batteryTemperature hostname)
                     "sensor" "batteryTemperature" ;;
  hostname <- config_item "hostname" ;;
  publish_autoconfig base (payload_batteryStatus hostname) "sensor" "batteryStatus".

Definition mqtt_on_connect (pijuice : pijuice_io) : io unit :=
  hostname <- config_item "hostname" ;;
  will_set (service_topic hostname) "offline" 1 true ;;
  hostname <- config_item "hostname" ;;
  publish (service_topic hostname) "online" 1 true ;;
  homeassistant <- config_item "homeassistant" ;;
  sensor <- item homeassistant "sensor" ;;
  if truthy sensor then autoconfig pijuice else ret tt.

(** The dictionary [pijuice_status] and its publication: the [try] body
    of [publish_pijuice] after the optional heartbeat. *)
Definition publish_status (pijuice : pijuice_io) : io unit :=
  r <- call pijuice GetStatus ;;
  status <- item r "data" ;;
  r <- call pijuice GetChargeLevel ;;
  batteryCharge <- item r "data" ;;
  r <- call pijuice GetBatteryVoltage ;;
  x <- item r "data" ;;
  batteryVoltage <- lift (truediv1000 x) ;;
  r <- call pijuice GetBatteryCurrent ;;
  x <- item r "data" ;;
  batteryCurrent <- lift (truediv1000 x) ;;
  r <- call pijuice GetBatteryTemperature ;;
  batteryTemperature <- item r "data" ;;
  batteryStatus <- item status "battery" ;;
  powerInput <- item status "powerInput" ;;
  powerInput5vIo <- item status "powerInput5vIo" ;;
  r <- call pijuice GetIoVoltage ;;
  x <- item r "data" ;;
  ioVoltage <- lift (truediv1000 x) ;;
  r <- call pijuice GetIoCurrent ;;
  x <- item r "data" ;;
  ioCurrent <- lift (truediv1000 x) ;;
  let pijuice_status :=
    [ ("batteryCharge", batteryCharge);
      ("batteryVoltage", batteryVoltage);
      ("batteryCurrent", batteryCurrent);
      ("batteryTemperature", batteryTemperature);
      ("batteryStatus", batteryStatus);
      ("powerInput", powerInput);
      ("powerInput5vIo", powerInput5vIo);
      ("ioVoltage", ioVoltage);
      ("ioCurrent", ioCurrent) ] in
  hostname <- config_item "hostname" ;;
  publish (status_topic hostname) (dumps (VDict pijuice_status)) 0 false.

(** [if "publish_online_status" in config and config["publish_online_status"]:] *)
Definition heartbeat : io unit :=
  if dict_mem config "publish_online_status" then
    flag <- config_item "publish_online_status" ;;
    if truthy flag then
      hostname <- config_item "hostname" ;;
      publish (service_topic hostname) "online" 1 true
    else ret tt
  else ret tt.

(** [publish_pijuice]: a new [threading.Timer] on [publish_pijuice] itself
    is stored in [timer_thread] and started, then the cycle runs. *)
Definition publish_pijuice (pijuice : pijuice_io) : io unit :=
  period <- config_item "publish_period" ;;
  emit (TimerStart period) ;;
  try_except_KeyError
    (heartbeat ;; publish_status pijuice)
    (print "Could not read PiJuice data, skipping").

(** [on_exit]: [timer_thread] is the global the handler finds; it is
    [None] until [publish_pijuice] has run once. *)
Definition on_exit (timer_thread : option timer) : io unit :=
  print "Exiting..." ;;
  hostname <- config_item "hostname" ;;
  publish (service_topic hostname) "offline" 1 true ;;
  match timer_thread with
  | None => raise AttributeError
  | Some _ =>
      emit TimerCancel ;;
      emit TimerJoin ;;
      raise (SystemExit 0)
  end.

(** The main program, up to the call of [client.loop_forever()]. *)
Definition main (pijuice : pijuice_io) : io unit :=
  mqtt <- config_item "mqtt" ;;
  username <- item mqtt "username" ;;
  mqtt <- config_item "mqtt" ;;
  password <- item mqtt "password" ;;
  emit (UsernamePwSet username password) ;;
  mqtt <- config_item "mqtt" ;;
  broker <- item mqtt "broker" ;;
  mqtt <- config_item "mqtt" ;;
  port <- item mqtt "port" ;;
  emit (Connect broker port 60) ;;
  print "PiJuice connected to MQTT broker" ;;
  emit (SignalHandler 2) ;;
  emit (SignalHandler 15) ;;
  publish_pijuice pijuice.

End Script.

(** ** The process *)

(** The main thread runs [main] and then sits in [client.loop_forever()],
    where the connection acknowledgement and the signal handler are
    dispatched.  Timer threads are not daemon threads: a waiting timer fires
    whatever became of the main thread, and the process is gone only when
    the main thread has ended and no timer waits. *)
Inductive main_thread : Type :=
| Running
| Exited (code : Z)
| Failed (e : exn).

(** [pending] is the interval that the thread of the timer in
    [timer_thread] has yet to wait out: [None] as long as no timer was
    started and once the thread has left its wait to call the function. *)
Record process : Type := {
  main_status : main_thread;
  timer_thread : option timer;
  pending : option value;
  log : list event
}.

(** The thread of a [threading.Timer] runs [self.finished.wait(self.interval)]
    and then, unless the timer was cancelled, the function.  [wait] compares
    the interval with 0: an [int], a [float] or a [bool] passes, and the
    thread sleeps that long.  Any other interval but [None] raises
    [TypeError] there, in the timer's thread, which ends without a call of
    the function; [start()] itself has returned by then, in the thread that
    made the timer. *)
Definition is_number (interval : value) : bool :=
  match interval with
  | VInt _ | VFloat _ _ | VBool _ => true
  | _ => false
  end.

(** With [None] for an interval [wait] has no timeout: the thread stays in
    it until the timer is cancelled. *)
Definition keeps_waiting (interval : value) : bool :=
  match interval with
  | VNone => true
  | _ => is_number interval
  end.

(** What the events of a callback do to the global [timer_thread]: the
    object it holds and whether [cancel()] was called on it. *)
Definition timer_event (t : option timer) (e : event) : option timer :=
  match e with
  | TimerStart _ => Some Waiting
  | TimerCancel => match t with Some _ => Some Cancelled | None => None end
  | _ => t
  end.

Definition timer_after (t : option timer) (tr : list event) : option timer :=
  fold_left timer_event tr t.

(** What the events of a callback do to the interval that is waited for:
    a new timer brings its own. *)
Definition pending_event (i : option value) (e : event) : option value :=
  match e with
  | TimerStart interval => Some interval
  | _ => i
  end.

Definition pending_after (i : option value) (tr : list event) : option value :=
  fold_left pending_event tr i.

(** The timer will call [publish_pijuice]: it was started and not
    cancelled, and its thread waits for a number of seconds. *)
Definition armed (p : process) : bool :=
  match timer_thread p, pending p with
  | Some Waiting, Some interval => is_number interval
  | _, _ => false
  end.

(** The thread of the timer has not ended. *)
Definition timer_alive (p : process) : bool :=
  match timer_thread p, pending p with
  | Some Waiting, Some interval => keeps_waiting interval
  | _, _ => false
  end.

Definition main_after (r : exn + unit) : main_thread :=
  match r with
  | inr _ => Running
  | inl (SystemExit code) => Exited code
  | inl e => Failed e
  end.

(** What reaches the process once it is up. *)
Inductive input : Type :=
| TimerFires (pijuice : pijuice_io)
| Connack (pijuice : pijuice_io)
| Signal.

Section Process.

Variable config : dict.
Variable library_version : string.

(** A callback dispatched on the main thread. *)
Definition on_main (p : process) (m : io unit) : process :=
  {| main_status := main_after (outcome m);
     timer_thread := timer_after (timer_thread p) (trace m);
     pending := pending_after (pending p) (trace m);
     log := log p ++ trace m |}.

(** A callback run by a timer thread: an exception ends that thread only.
    The timer that called it has waited its interval out; what is pending
    afterwards is the interval of a timer the callback started. *)
Definition on_timer (p : process) (m : io unit) : process :=
  {| main_status := main_status p;
     timer_thread := timer_after (timer_thread p) (trace m);
     pending := pending_after None (trace m);
     log := log p ++ trace m |}.

Definition start : process :=
  {| main_status := Running; timer_thread := None; pending := None; log := [] |}.

Definition boot (pijuice : pijuice_io) : process :=
  on_main start (main config pijuice).

(** An input the process cannot meet leaves it as it is: a timer fires
    only when it is armed, and the main thread dispatches callbacks only
    while it is in its loop. *)
Definition step (p : process) (i : input) : process :=
  match i with
  | TimerFires pijuice =>
      if armed p then on_timer p (publish_pijuice config pijuice) else p
  | Connack pijuice =>
      match main_status p with
      | Running => on_main p (mqtt_on_connect config library_version pijuice)
      | _ => p
      end
  | Signal =>
      match main_status p with
      | Running => on_main p (on_exit config (timer_thread p))
      | _ => p
      end
  end.

Definition run (p : process) (inputs : list input) : process :=
  fold_left step inputs p.

End Process.

(** The exit status of the process, once the main thread and the thread
    of the timer have both ended. *)
Definition exit_status (p : process) : option Z :=
  if timer_alive p then None
  else
    match main_status p with
    | Running => None
    | Exited code => Some code
    | Failed _ => Some 1
    end.

(** ** Time *)

(** [cost e] is how long the action [e] keeps its thread busy, in seconds.
    A callback that starts at [t0] performs its events back to back. *)
Section Timing.

Variable cost : event -> Z.

Definition duration (tr : list event) : Z :=
  fold_right (fun e acc => cost e + acc) 0 tr.

(** [Timer(interval, f).start()]: the new thread waits [interval] seconds
    (not at all when it is negative) and calls [f].  The clock of this
    section counts whole seconds: [seconds interval] is the wait when it is
    a whole number of seconds, an [int], a [bool] or a [float] without a
    fraction.  It is [None] for a [float] with a fraction, whose timer
    fires between two ticks of this clock, and for an interval that is no
    number, whose timer never fires ([is_number] tells the two apart). *)
Definition seconds (interval : value) : option Z :=
  match interval with
  | VInt z => Some (Z.max 0 z)
  | VBool b => Some (if b then 1 else 0)
  | VFloat m e =>
      if 0 <=? e then Some (Z.max 0 (m * 10 ^ e))
      else if m mod 10 ^ (- e) =? 0 then Some (Z.max 0 (m / 10 ^ (- e)))
      else None
  | _ => None
  end.

(** The tick at which the timer started by a callback that begins at [t0]
    fires, when it fires on a tick. *)
Fixpoint timer_fires (t0 : Z) (tr : list event) : option Z :=
  match tr with
  | [] => None
  | TimerStart interval :: _ => option_map (Z.add t0) (seconds interval)
  | e :: tr' => timer_fires (t0 + cost e) tr'
  end.

Definition completes (t0 : Z) (tr : list event) : Z := t0 + duration tr.

(** From the end of a callback to the start of the one its timer calls. *)
Definition gap (t0 : Z) (tr : list event) : option Z :=
  option_map (fun next => next - completes t0 tr) (timer_fires t0 tr).

End Timing.

(** ** Predicates on traces *)

(** [s.endswith(suffix)] *)
Fixpoint ends_with (suffix s : string) : bool :=
  String.eqb s suffix ||
  match s with
  | EmptyString => false
  | String _ s' => ends_with suffix s'
  end.

Definition publish_to (suffix : string) (e : event) : bool :=
  match e with
  | Publish topic _ _ _ => ends_with suffix topic
  | _ => false
  end.

(** Status messages and autodiscovery documents, told by their topics. *)
Definition is_status_publish : event -> bool := publish_to "/status".
Definition is_autoconfig_publish : event -> bool := publish_to "/config".

Definition is_offline_publish (e : event) : bool :=
  match e with
  | Publish _ payload _ _ => String.eqb payload "offline"
  | _ => false
  end.

Definition is_timer_event (e : event) : bool :=
  match e with TimerStart _ | TimerCancel => true | _ => false end.

(** ** Readings *)

(** The order in which one cycle calls the hat. *)
Definition cycle_calls : list getter :=
  [GetStatus; GetChargeLevel; GetBatteryVoltage; GetBatteryCurrent;
   GetBatteryTemperature; GetIoVoltage; GetIoCurrent].

(** A hat that answers every call, as the PiJuice library does on success. *)
Record readings : Type := {
  chargeLevel : Z;
  batteryVoltage : Z;
  batteryCurrent : Z;
  batteryTemperature : Z;
  battery : string;
  powerInput : string;
  powerInput5vIo : string;
  ioVoltage : Z;
  ioCurrent : Z;
  capacity : Z;
  version : string
}.

Definition reply (data : value) : value :=
  VDict [("data", data); ("error", VStr "NO_ERROR")].

Definition hat (r : readings) : pijuice_io :=
  fun g =>
    match g with
    | GetStatus => reply (VDict [ ("isFault", VBool false);
                                  ("isButton", VBool false);
                                  ("battery", VStr (battery r));
                                  ("powerInput", VStr (powerInput r));
                                  ("powerInput5vIo", VStr (powerInput5vIo r)) ])
    | GetChargeLevel => reply (VInt (chargeLevel r))
    | GetBatteryVoltage => reply (VInt (batteryVoltage r))
    | GetBatteryCurrent => reply (VInt (batteryCurrent r))
    | GetBatteryTemperature => reply (VInt (batteryTemperature r))
    | GetIoVoltage => reply (VInt (ioVoltage r))
    | GetIoCurrent => reply (VInt (ioCurrent r))
    | GetBatteryProfile => reply (VDict [("capacity", VInt (capacity r))])
    | GetFirmwareVersion => reply (VDict [("version", VStr (version r))])
    end.

(** The same hat with one call answered by a communication error. *)
Definition failing (g0 : getter) (pijuice : pijuice_io) : pijuice_io :=
  fun g =>
    match g0, g with
    | GetStatus, GetStatus | GetChargeLevel, GetChargeLevel
    | GetBatteryVoltage, GetBatteryVoltage | GetBatteryCurrent, GetBatteryCurrent
    | GetBatteryTemperature, GetBatteryTemperature | GetIoVoltage, GetIoVoltage
    | GetIoCurrent, GetIoCurrent | GetBatteryProfile, GetBatteryProfile
    | GetFirmwareVersion, GetFirmwareVersion =>
        VDict [("error", VStr "COMMUNICATION_ERROR")]
    | _, _ => pijuice g
    end.

(** The readings of the worked example. *)
Definition sample : readings :=
  {| chargeLevel := 87; batteryVoltage := 4050; batteryCurrent := -120;
     batteryTemperature := 29; battery := "CHARGING_FROM_IN";
     powerInput := "PRESENT"; powerInput5vIo := "PRESENT";
     ioVoltage := 5100; ioCurrent := 300;
     capacity := 1820; version := "1.6" |}.

(** ** Comparing JSON texts *)

(** A JSON text without its insignificant white space, that is, the white
    space outside string literals. *)
Fixpoint json_compact (in_string escaped : bool) (s : string) : string :=
  match s with
  | EmptyString => EmptyString
  | String a s' =>
      if in_string then
        if escaped then String a (json_compact true false s')
        else if Ascii.eqb a (chr 92) then String a (json_compact true true s')
        else if Ascii.eqb a (chr 34) then String a (json_compact false false s')
        else String a (json_compact true false s')
      else if (Ascii.eqb a " " || Ascii.eqb a (chr 9) || Ascii.eqb a (chr 10)
               || Ascii.eqb a (chr 13))%bool then json_compact false false s'
      else if Ascii.eqb a (chr 34) then String a (json_compact true false s')
      else String a (json_compact false false s')
  end.

(** ** What a cycle and a connection are expected to leave in the trace *)

Definition skip_message : string := "Could not read PiJuice data, skipping".

(** The condition of the heartbeat, [config] being a dictionary. *)
Definition heartbeat_enabled (config : dict) : bool :=
  match dict_get config "publish_online_status" with
  | Some flag => truthy flag
  | None => false
  end.

Definition heartbeat_events (config : dict) (hostname : value) : list event :=
  if heartbeat_enabled config then [Publish (service_topic hostname) "online" 1 true]
  else [].

(** The dictionary [pijuice_status] of a cycle whose readings all arrived. *)
Definition status_document (charge mv ma temp b pin p5 iomv ioma : value) : dict :=
  [ ("batteryCharge", charge); ("batteryVoltage", mv); ("batteryCurrent", ma);
    ("batteryTemperature", temp); ("batteryStatus", b); ("powerInput", pin);
    ("powerInput5vIo", p5); ("ioVoltage", iomv); ("ioCurrent", ioma) ].

Definition document_of (r : readings) : dict :=
  status_document (VInt (chargeLevel r)) (VFloat (batteryVoltage r) (-3))
    (VFloat (batteryCurrent r) (-3)) (VInt (batteryTemperature r))
    (VStr (battery r)) (VStr (powerInput r)) (VStr (powerInput5vIo r))
    (VFloat (ioVoltage r) (-3)) (VFloat (ioCurrent r) (-3)).

(** What [on_exit] does when a timer has been started. *)
Definition exit_events (hostname : value) : list event :=
  [Print "Exiting..."; Publish (service_topic hostname) "offline" 1 true;
   TimerCancel; TimerJoin].

(** *** Replies of the hat *)

(** [v] is a dictionary without the key [k]: the lookup [v[k]] is a
    [KeyError]. *)
Definition missing (v : value) (k : string) : bool :=
  match v with
  | VDict d => negb (dict_mem d k)
  | _ => false
  end.

Definition is_dict (v : value) : bool :=
  match v with VDict _ => true | _ => false end.

Definition is_int (v : value) : bool :=
  match v with VInt _ => true | _ => false end.

(** A reply of the library: a dictionary whose ["data"], when there, is of
    the type the call promises. *)
Definition reply_of (type : value -> bool) (v : value) : bool :=
  match v with
  | VDict d => match dict_get d "data" with Some x => type x | None => true end
  | _ => false
  end.

Definition well_typed (pijuice : pijuice_io) : bool :=
  reply_of is_dict (pijuice GetStatus)
  && reply_of (fun _ => true) (pijuice GetChargeLevel)
  && reply_of is_int (pijuice GetBatteryVoltage)
  && reply_of is_int (pijuice GetBatteryCurrent)
  && reply_of (fun _ => true) (pijuice GetBatteryTemperature)
  && reply_of is_int (pijuice GetIoVoltage)
  && reply_of is_int (pijuice GetIoCurrent).

(** One of the lookups behind the nine fields meets a missing key. *)
Definition lookup_fails (pijuice : pijuice_io) : bool :=
  missing (pijuice GetStatus) "data"
  || missing (pijuice GetChargeLevel) "data"
  || missing (pijuice GetBatteryVoltage) "data"
  || missing (pijuice GetBatteryCurrent) "data"
  || missing (pijuice GetBatteryTemperature) "data"
  || missing (pijuice GetIoVoltage) "data"
  || missing (pijuice GetIoCurrent) "data"
  || match getitem (pijuice GetStatus) "data" with
     | inr status =>
         missing status "battery" || missing status "powerInput"
         || missing status "powerInput5vIo"
     | inl _ => false
     end.

(** *** Device metadata and the autodiscovery documents *)

(** [pijuice.config.GetX()["data"][k]] *)
Definition metadata (pijuice : pijuice_io) (g : getter) (k : string) : exn + value :=
  match getitem (pijuice g) "data" with
  | inr data => getitem data k
  | inl e => inl e
  end.

Definition battery_capacity (pijuice : pijuice_io) : exn + value :=
  metadata pijuice GetBatteryProfile "capacity".

Definition firmware_version (pijuice : pijuice_io) : exn + value :=
  metadata pijuice GetFirmwareVersion "version".

(** [base_payload] after [if "expire_after" in config["homeassistant"]:]. *)
Definition with_expire_after (homeassistant base : dict) : exn + dict :=
  match dict_get homeassistant "expire_after" with
  | None => inr base
  | Some x =>
      match py_int x with
      | inr n => inr (dict_set base "expire_after" (VInt n))
      | inl e => inl e
      end
  end.

(** The four documents, in the order they are published. *)
Definition autoconfig_events (topic hostname : value) (base : dict) : list event :=
  [ Publish (discovery_topic topic hostname "sensor" "batteryCharge")
      (dumps (VDict (dict_merge base (payload_batteryCharge hostname)))) 1 true;
    Publish (discovery_topic topic hostname "binary_sensor" "powerInput5vIo")
      (dumps (VDict (dict_merge base (payload_powerInput5vIo hostname)))) 1 true;
    Publish (discovery_topic topic hostname "sensor" "batteryTemperature")
      (dumps (VDict (dict_merge base (payload_batteryTemperature hostname)))) 1 true;
    Publish (discovery_topic topic hostname "sensor" "batteryStatus")
      (dumps (VDict (dict_merge base (payload_batteryStatus hostname)))) 1 true ].

(** *** Invariants *)

(** Every event of a computation satisfies [P]; no event satisfies [f]. *)
Definition always {A : Type} (P : event -> Prop) (m : io A) : Prop :=
  Forall P (trace m).

Definition never {A : Type} (f : event -> bool) (m : io A) : Prop :=
  always (fun e => f e = false) m.

(** While the main thread is in its loop, [timer_thread] holds a timer
    that was started and not cancelled, and nothing has been published as
    offline. *)
Definition serving (p : process) : Prop :=
  main_status p = Running ->
  timer_thread p = Some Waiting
  /\ Forall (fun e => is_offline_publish e = false) (log p).

(** ** Fixtures *)

(** Writes a text with double quotes as single quotes. *)
Definition qq (s : string) : string :=
  string_of_list_ascii
    (map (fun a => if Ascii.eqb a (chr 39) then chr 34 else a) (list_ascii_of_string s)).

(** The configuration of a file that sets nothing. *)
Definition stock_config : dict := dict_merge (default_config "raspberrypi") [].

(** A file that names the broker and nothing else. *)
Definition broker_only : value :=
  VDict [("mqtt", VDict [("broker", VStr "192.168.1.10")])].

(** A file that switches the Home Assistant sensors off. *)
Definition sensor_off : dict :=
  dict_merge (default_config "raspberrypi")
             [("homeassistant", VDict [("topic", VStr "homeassistant");
                                       ("sensor", VBool false)])].

(** A file that switches the heartbeat on. *)
Definition with_heartbeat : dict :=
  dict_merge (default_config "raspberrypi") [("publish_online_status", VBool true)].

(** Every call to the hat takes a second, the rest no time. *)
Definition slow_hat (e : event) : Z :=
  match e with Call _ => 1 | _ => 0 end.

(** A file that gives the period as a text, and one that gives it as a
    float. *)
Definition text_period : dict :=
  dict_merge (default_config "raspberrypi") [("publish_period", VStr "30")].

Definition float_period : dict :=
  dict_merge (default_config "raspberrypi") [("publish_period", VFloat 25 (-1))].

(** The broker takes forty seconds to accept a message. *)
Definition slow_broker (e : event) : Z :=
  match e with Publish _ _ _ _ => 40 | _ => 0 end.

(** The worked example of the specification: the text [json.dumps] prints,
    and the same document as the specification writes it. *)
Definition sample_text : string :=
  qq "{'batteryCharge': 87, 'batteryVoltage': 4.05, 'batteryCurrent': -0.12, 'batteryTemperature': 29, 'batteryStatus': 'CHARGING_FROM_IN', 'powerInput': 'PRESENT', 'powerInput5vIo': 'PRESENT', 'ioVoltage': 5.1, 'ioCurrent': 0.3}".

Definition sample_text_compact : string :=
  qq "{'batteryCharge':87,'batteryVoltage':4.05,'batteryCurrent':-0.12,'batteryTemperature':29,'batteryStatus':'CHARGING_FROM_IN','powerInput':'PRESENT','powerInput5vIo':'PRESENT','ioVoltage':5.1,'ioCurrent':0.3}".

(** The same device on another day. *)
Definition other_day : readings :=
  {| chargeLevel := 12; batteryVoltage := 3300; batteryCurrent := 950;
     batteryTemperature := 41; battery := "NORMAL";
     powerInput := "NOT_PRESENT"; powerInput5vIo := "NOT_PRESENT";
     ioVoltage := 0; ioCurrent := -5;
     capacity := 1820; version := "1.6" |}.

(** A connection, two good cycles and a bad one. *)
Definition busy_morning : list input :=
  [Connack (hat sample); TimerFires (hat sample);
   TimerFires (failing GetIoVoltage (hat sample)); TimerFires (hat sample)].

(** ** More observations on traces *)

(** The calls to the hat in a trace, in order. *)
Definition calls_of (tr : list event) : list getter :=
  flat_map (fun e => match e with Call g => [g] | _ => [] end) tr.

Definition is_retained_publish (e : event) : bool :=
  match e with Publish _ _ _ retain => retain | _ => false end.

Definition is_connect (e : event) : bool :=
  match e with Connect _ _ _ => true | _ => false end.

Definition is_print (e : event) : bool :=
  match e with Print _ => true | _ => false end.

Definition is_publish (e : event) : bool :=
  match e with Publish _ _ _ _ => true | _ => false end.

(** How the script hands a message to the broker: status messages at
    qos 0 and not retained, everything else, the will included, at qos 1
    and retained. *)
Definition delivery_ok (e : event) : Prop :=
  match e with
  | Publish topic _ qos retain =>
      if ends_with "/status" topic then qos = 0 /\ retain = false
      else qos = 1 /\ retain = true
  | WillSet _ _ qos retain => qos = 1 /\ retain = true
  | _ => True
  end.

(** A call for one of the seven readings of a cycle. *)
Definition is_telemetry_call (e : event) : bool :=
  match e with
  | Call GetBatteryProfile | Call GetFirmwareVersion => false
  | Call _ => true
  | _ => false
  end.

(** The timer firings among the inputs of a run. *)
Definition firings (inputs : list input) : nat :=
  length (filter (fun i => match i with TimerFires _ => true | _ => false end) inputs).

(** What the main program does before its first cycle when the [mqtt]
    section is the default one. *)
Definition default_setup : list event :=
  [UsernamePwSet VNone VNone; Connect (VStr "127.0.0.1") (VInt 1883) 60;
   Print "PiJuice connected to MQTT broker"; SignalHandler 2; SignalHandler 15].

(** The four sensor documents before the merge with the base document. *)
Definition sensor_payloads (hostname : value) : list dict :=
  [payload_batteryCharge hostname; payload_powerInput5vIo hostname;
   payload_batteryTemperature hostname; payload_batteryStatus hostname].


(** A file with a heartbeat and an expiry that is no number. *)
Definition expires_soon : dict :=
  dict_merge (default_config "raspberrypi")
             [("homeassistant", VDict [("topic", VStr "homeassistant");
                                       ("sensor", VBool true);
                                       ("expire_after", VStr "soon")])].

(** A file that gives the expiry as a text of digits. *)
Definition expires_in_a_minute : dict :=
  dict_merge (default_config "raspberrypi")
             [("homeassistant", VDict [("topic", VStr "homeassistant");
                                       ("sensor", VBool true);
                                       ("expire_after", VStr "60")])].

(** * Properties *)

(** ** The value model on samples *)

Example dumps_samples :
  dumps (VDict [("a", VInt 87); ("b", VFloat 4050 (-3)); ("u", VStr "°C");
                ("l", VList [VStr "x"; VBool false; VNone]); ("e", VDict [])])
  = qq "{'a': 87, 'b': 4.05, 'u': '\u00b0C', 'l': ['x', false, null], 'e': {}}".
Proof. vm_compute. reflexivity. Qed.

Example py_int_samples :
  map py_int [VStr " 12 "; VStr "-1_000"; VStr "1__0"; VStr ""; VFloat 37 (-1);
              VFloat (-37) (-1); VNone; VStr "+7"]
  = [inr 12; inr (-1000); inl ValueError; inl ValueError; inr 3; inr (-3);
     inl TypeError; inr 7].
Proof. vm_compute. reflexivity. Qed.

Example float_repr_samples :
  map (fun p => float_repr (fst p) (snd p))
      [(4050, -3); (-120, -3); (5100, -3); (300, -3); (4000, -3); (0, -3);
       (1, -3); (1, -4); (1, -5); (1, 15); (1, 16); (12345, -7); (-5, 0)]
  = ["4.05"; "-0.12"; "5.1"; "0.3"; "4.0"; "0.0";
     "0.001"; "0.0001"; "1e-05"; "1000000000000000.0"; "1e+16"; "0.0012345"; "-5.0"].
Proof. vm_compute. reflexivity. Qed.

Example py_str_samples :
  map py_str [VStr "pi"; VInt 5; VNone; VBool true; VList [VStr "a"; VStr "it's"]]
  = ["pi"; "5"; "None"; "True"; "['a', " ++ dquote ++ "it's" ++ dquote ++ "]"].
Proof. vm_compute. reflexivity. Qed.

(** One cycle and one connection of the stock configuration. *)
Example cycle_sample :
  publish_pijuice stock_config (hat sample)
  = ([TimerStart (VInt 30); Call GetStatus; Call GetChargeLevel; Call GetBatteryVoltage;
      Call GetBatteryCurrent; Call GetBatteryTemperature; Call GetIoVoltage;
      Call GetIoCurrent;
      Publish "pijuicemqtt/raspberrypi/status" sample_text 0 false], inr tt).
Proof. vm_compute. reflexivity. Qed.

Example connection_sample :
  map (fun e => match e with
                | Publish topic _ _ _ => topic
                | WillSet topic _ _ _ => topic
                | _ => ""
                end)
      (trace (mqtt_on_connect stock_config "1.8" (hat sample)))
  = ["pijuicemqtt/raspberrypi/service"; "pijuicemqtt/raspberrypi/service"; ""; ""; "";
     "homeassistant/sensor/pijuicemqtt-raspberrypi/batteryCharge/config";
     "homeassistant/binary_sensor/pijuicemqtt-raspberrypi/powerInput5vIo/config";
     "homeassistant/sensor/pijuicemqtt-raspberrypi/batteryTemperature/config";
     "homeassistant/sensor/pijuicemqtt-raspberrypi/batteryStatus/config"].
Proof. vm_compute. reflexivity. Qed.

(** The three ways a cycle can end: published, skipped, raised. *)
Example cycle_outcomes :
  outcome (publish_pijuice stock_config (hat sample)) = inr tt
  /\ outcome (publish_pijuice stock_config (failing GetChargeLevel (hat sample))) = inr tt
  /\ outcome (publish_pijuice stock_config
                (fun g => match g with
                          | GetBatteryVoltage => reply (VStr "4050")
                          | _ => hat sample g
                          end)) = inl TypeError.
Proof. repeat split. Qed.

(** ** Strings *)

Lemma append_length (a b : string) :
  String.length (a ++ b) = (String.length a + String.length b)%nat.
Proof. induction a as [|c a IH]; simpl; [reflexivity | now rewrite IH]. Qed.

Lemma ends_with_refl (s : string) : ends_with s s = true.
Proof. destruct s; simpl; [reflexivity|]. now rewrite Ascii.eqb_refl, String.eqb_refl. Qed.

Lemma ends_with_cons (suffix : string) (c : ascii) (s : string) :
  ends_with suffix (String c s)
  = String.eqb (String c s) suffix || ends_with suffix s.
Proof. reflexivity. Qed.

Lemma ends_with_app (suffix a b : string) :
  ends_with suffix b = true -> ends_with suffix (a ++ b) = true.
Proof.
  intros H. induction a as [|c a IH]; [exact H|].
  change (String c a ++ b) with (String c (a ++ b)).
  rewrite ends_with_cons, IH. apply orb_true_r.
Qed.

Lemma eqb_length (s t : string) :
  String.length s <> String.length t -> String.eqb s t = false.
Proof.
  intros H. apply String.eqb_neq. intros E. apply H. now rewrite E.
Qed.

Lemma ends_with_app_false (suffix a b : string) :
  (String.length suffix <= String.length b)%nat ->
  ends_with suffix b = false -> ends_with suffix (a ++ b) = false.
Proof.
  intros L H. induction a as [|c a IH]; [exact H|].
  change (String c a ++ b) with (String c (a ++ b)).
  rewrite ends_with_cons, IH, orb_false_r. apply eqb_length.
  change (String c (a ++ b)) with (String c a ++ b).
  rewrite append_length. simpl. lia.
Qed.

Lemma ends_with_length (suffix a b : string) :
  (String.length suffix <= String.length b)%nat ->
  (String.length suffix <= String.length (a ++ b))%nat.
Proof. rewrite append_length. lia. Qed.

(** ** Topics *)

Lemma service_topic_ends (h : value) : ends_with "/service" (service_topic h) = true.
Proof. unfold service_topic. repeat apply ends_with_app. reflexivity. Qed.

Lemma status_topic_ends (h : value) : ends_with "/status" (status_topic h) = true.
Proof. unfold status_topic. repeat apply ends_with_app. reflexivity. Qed.

Lemma discovery_topic_ends (t h : value) (p s : string) :
  ends_with "/config" (discovery_topic t h p s) = true.
Proof. unfold discovery_topic. repeat apply ends_with_app. reflexivity. Qed.

Ltac other_suffix :=
  repeat (apply ends_with_app_false; [repeat apply ends_with_length; simpl; lia|]);
  reflexivity.

Lemma service_topic_not_status (h : value) : ends_with "/status" (service_topic h) = false.
Proof. unfold service_topic. other_suffix. Qed.

Lemma service_topic_not_config (h : value) : ends_with "/config" (service_topic h) = false.
Proof. unfold service_topic. other_suffix. Qed.

Lemma status_topic_not_config (h : value) : ends_with "/config" (status_topic h) = false.
Proof. unfold status_topic. other_suffix. Qed.

(** ** Dictionaries and [load_config] *)

Lemma dict_get_set (d : dict) (k k' : string) (v : value) :
  dict_get (dict_set d k v) k' = if String.eqb k' k then Some v else dict_get d k'.
Proof.
  induction d as [|[k0 v0] d IH]; simpl.
  - reflexivity.
  - destruct (String.eqb k k0) eqn:E; simpl.
    + apply String.eqb_eq in E. subst k0.
      destruct (String.eqb k' k); reflexivity.
    + rewrite IH. destruct (String.eqb k' k0) eqn:E0; [|reflexivity].
      apply String.eqb_eq in E0. subst k0.
      rewrite String.eqb_sym, E. reflexivity.
Qed.

(** A key the second dictionary lacks keeps its value. *)
Lemma dict_get_merge_absent (b a : dict) (k : string) :
  dict_get b k = None -> dict_get (dict_merge a b) k = dict_get a k.
Proof.
  unfold dict_merge. revert a.
  induction b as [|[k0 v0] b IH]; intros a H; simpl in *; [reflexivity|].
  destruct (String.eqb k k0) eqn:E; [discriminate|].
  rewrite IH by exact H. rewrite dict_get_set, E. reflexivity.
Qed.

Lemma dict_get_absent (d : dict) (k : string) :
  ~ In k (map fst d) -> dict_get d k = None.
Proof.
  induction d as [|[k0 v0] d IH]; simpl; [reflexivity|]. intros H.
  destruct (String.eqb k k0) eqn:E.
  - apply String.eqb_eq in E. subst. exfalso. apply H. now left.
  - apply IH. intros I. apply H. now right.
Qed.

(** With distinct keys, as in a dictionary read from a file, what the
    second dictionary holds under a key is what the merge holds. *)
Lemma dict_get_merge_present (b a : dict) (k : string) (v : value) :
  NoDup (map fst b) -> dict_get b k = Some v -> dict_get (dict_merge a b) k = Some v.
Proof.
  revert a. induction b as [|[k0 v0] b IH]; intros a N H; [discriminate|].
  simpl in N. inversion N as [|? ? Hn N']; subst.
  change (dict_merge a ((k0, v0) :: b)) with (dict_merge (dict_set a k0 v0) b).
  simpl in H. destruct (String.eqb k k0) eqn:E.
  - apply String.eqb_eq in E. subst k0. injection H as ->.
    rewrite dict_get_merge_absent by now apply dict_get_absent.
    now rewrite dict_get_set, String.eqb_refl.
  - now apply IH.
Qed.

(** A key of the first dictionary is a key of the merge. *)
Lemma dict_mem_merge (b a : dict) (k : string) :
  dict_mem a k = true -> dict_mem (dict_merge a b) k = true.
Proof.
  unfold dict_merge. revert a.
  induction b as [|[k0 v0] b IH]; intros a H; simpl; [exact H|].
  apply IH. unfold dict_mem in *. rewrite dict_get_set.
  destruct (String.eqb k k0); [reflexivity | exact H].
Qed.

Lemma dict_mem_get (d : dict) (k : string) :
  dict_mem d k = true -> exists v, dict_get d k = Some v.
Proof. unfold dict_mem. destruct (dict_get d k); [eauto | discriminate]. Qed.

(** What [load_config] returns has every top-level key of the defaults. *)
Lemma loaded_has (node : string) (override : dict) (k : string) :
  In k ["mqtt"; "homeassistant"; "publish_period"; "hostname"] ->
  exists v, dict_get (dict_merge (default_config node) override) k = Some v.
Proof.
  intros H. apply dict_mem_get, dict_mem_merge.
  simpl in H. repeat (destruct H as [<-|H]; [reflexivity|]). contradiction.
Qed.

Lemma loaded_period (node : string) (override : dict) :
  exists v, dict_get (dict_merge (default_config node) override) "publish_period" = Some v.
Proof. apply loaded_has. simpl. auto. Qed.

Lemma loaded_hostname (node : string) (override : dict) :
  exists v, dict_get (dict_merge (default_config node) override) "hostname" = Some v.
Proof. apply loaded_has. simpl. auto. Qed.

(** An option a file leaves out at the top level keeps its default. *)
Lemma load_config_default (node : string) (override : dict) (k : string) :
  dict_get override k = None ->
  exists config,
    load_config node (VDict override) = inr config
    /\ dict_get config k = dict_get (default_config node) k.
Proof.
  intros H. eexists. split; [reflexivity|]. now apply dict_get_merge_absent.
Qed.

(** A section the file gives replaces the default section as a whole. *)
Lemma load_config_replaces_section (node : string) (override : dict) (k : string)
      (section : value) :
  NoDup (map fst override) ->
  dict_get override k = Some section ->
  exists config,
    load_config node (VDict override) = inr config /\ dict_get config k = Some section.
Proof.
  intros N H. eexists. split; [reflexivity|]. now apply dict_get_merge_present.
Qed.

(** A section a file leaves out keeps all its defaults. *)
Example load_config_whole_sections :
  load_config "raspberrypi" (VDict [("publish_period", VInt 10)])
  = inr [ ("mqtt", VDict [ ("broker", VStr "127.0.0.1"); ("port", VInt 1883);
                           ("username", VNone); ("password", VNone) ]);
          ("homeassistant", VDict [ ("topic", VStr "homeassistant");
                                    ("sensor", VBool true) ]);
          ("publish_period", VInt 10);
          ("hostname", VStr "raspberrypi") ].
Proof. reflexivity. Qed.

(** An empty file is read as [None], which cannot be unpacked. *)
Example load_config_empty_file : load_config "raspberrypi" VNone = inl TypeError.
Proof. reflexivity. Qed.

(** ** Traces *)

Lemma trace_bind {A B : Type} (m : io A) (k : A -> io B) :
  trace (bind m k) =
  (trace m ++ match outcome m with inr a => trace (k a) | inl _ => [] end)%list.
Proof.
  destruct m as [t [e|a]]; simpl; [now rewrite app_nil_r|].
  destruct (k a); reflexivity.
Qed.

Lemma always_bind {A B : Type} P (m : io A) (k : A -> io B) :
  always P m -> (forall a, always P (k a)) -> always P (bind m k).
Proof.
  unfold always. intros Hm Hk. rewrite trace_bind. apply Forall_app. split; [exact Hm|].
  destruct (outcome m); [constructor | apply Hk].
Qed.

Lemma always_try P (body handler : io unit) :
  always P body -> always P handler -> always P (try_except_KeyError body handler).
Proof.
  unfold always, try_except_KeyError. intros Hb Hh.
  destruct body as [t [[]|[]]]; try exact Hb.
  destruct handler as [t' r]. simpl in *. apply Forall_app. now split.
Qed.

Lemma always_ret {A : Type} P (a : A) : always P (ret a).
Proof. constructor. Qed.

Lemma always_lift {A : Type} P (r : exn + A) : always P (lift r).
Proof. constructor. Qed.

Lemma always_raise {A : Type} P (e : exn) : always P (@raise A e).
Proof. constructor. Qed.

Lemma always_emit (P : event -> Prop) (e : event) : P e -> always P (emit e).
Proof. intros H. repeat constructor. exact H. Qed.

Lemma always_call (P : event -> Prop) pijuice g : P (Call g) -> always P (call pijuice g).
Proof.
  intros H. unfold call. apply always_bind; [now apply always_emit | intros; apply always_ret].
Qed.

(** Walks through a computation; what is left are its events. *)
Ltac always_step :=
  first
    [ apply always_ret | apply always_lift | apply always_raise
    | apply always_call
    | apply always_try
    | apply always_bind; [|intro]
    | apply always_emit
    | match goal with
      | |- always _ (if ?b then _ else _) => destruct b
      | |- always _ (match ?x with _ => _ end) => destruct x
      end ].

Ltac never_walk := unfold never; repeat always_step; try reflexivity.

Ltac topic_walk :=
  unfold never; repeat always_step; cbv beta;
  match goal with
  | |- is_autoconfig_publish (Publish (service_topic _) _ _ _) = false =>
      apply service_topic_not_config
  | |- is_autoconfig_publish (Publish (status_topic _) _ _ _) = false =>
      apply status_topic_not_config
  | |- _ => reflexivity
  end.

Lemma filter_quiet (f : event -> bool) (l : list event) :
  Forall (fun e => f e = false) l -> filter f l = [].
Proof.
  induction 1 as [|e l He _ IH]; [reflexivity|]. simpl. now rewrite He.
Qed.

Lemma filter_calls (f : event -> bool) (gs : list getter) :
  (forall g, f (Call g) = false) -> filter f (map Call gs) = [].
Proof. intros H. induction gs as [|g gs IH]; simpl; [reflexivity|]. now rewrite H. Qed.

Lemma bind_ret {A B : Type} (a : A) (k : A -> io B) : bind (ret a) k = k a.
Proof. unfold bind, ret. destruct (k a). reflexivity. Qed.

Lemma bind_emit {B : Type} (e : event) (k : unit -> io B) :
  bind (emit e) k = (e :: trace (k tt), outcome (k tt)).
Proof. unfold bind, emit. destruct (k tt). reflexivity. Qed.

Lemma config_item_some (config : dict) (k : string) (v : value) :
  dict_get config k = Some v -> config_item config k = ret v.
Proof. intros H. unfold config_item, item, lift, ret. simpl. now rewrite H. Qed.

Lemma getitem_exn (v : value) (k : string) (e : exn) :
  getitem v k = inl e -> e = KeyError \/ e = TypeError.
Proof.
  destruct v; simpl; try (intros [= <-]; auto).
  destruct (dict_get d k); intros [= <-]. auto.
Qed.

Lemma truediv1000_exn (v : value) (e : exn) :
  truediv1000 v = inl e -> e = TypeError.
Proof. destruct v; simpl; intros [= <-]; reflexivity. Qed.

(** *** What the callbacks never do *)

Lemma never_offline_publish_pijuice config pijuice :
  never is_offline_publish (publish_pijuice config pijuice).
Proof.
  unfold publish_pijuice, heartbeat, publish_status, config_item, item, print, publish.
  never_walk.
Qed.

Lemma never_offline_mqtt_on_connect config lib pijuice :
  never is_offline_publish (mqtt_on_connect config lib pijuice).
Proof.
  unfold mqtt_on_connect, autoconfig, publish_autoconfig, will_set, config_item, item,
    print, publish.
  never_walk.
Qed.

Lemma never_offline_main config pijuice : never is_offline_publish (main config pijuice).
Proof.
  unfold main, publish_pijuice, heartbeat, publish_status, config_item, item, print,
    publish.
  never_walk.
Qed.

Lemma never_timer_body (config : dict) (pijuice : pijuice_io) :
  never is_timer_event
        (try_except_KeyError (publish_status config pijuice) (print skip_message)).
Proof. unfold publish_status, config_item, item, print, publish. never_walk. Qed.

Lemma never_timer_mqtt_on_connect config lib pijuice :
  never is_timer_event (mqtt_on_connect config lib pijuice).
Proof.
  unfold mqtt_on_connect, autoconfig, publish_autoconfig, will_set, config_item, item,
    print, publish.
  never_walk.
Qed.

Lemma never_timer_heartbeat (config : dict) (h : value) :
  Forall (fun e => is_timer_event e = false) (heartbeat_events config h).
Proof. unfold heartbeat_events. destruct (heartbeat_enabled config); repeat constructor. Qed.

Lemma never_autoconfig_publish_pijuice config pijuice :
  never is_autoconfig_publish (publish_pijuice config pijuice).
Proof.
  unfold publish_pijuice, heartbeat, publish_status, config_item, item, print, publish.
  topic_walk.
Qed.

Lemma never_autoconfig_main config pijuice :
  never is_autoconfig_publish (main config pijuice).
Proof.
  unfold main, publish_pijuice, heartbeat, publish_status, config_item, item, print,
    publish.
  topic_walk.
Qed.

Lemma never_autoconfig_on_exit config t :
  never is_autoconfig_publish (on_exit config t).
Proof. unfold on_exit, config_item, item, print, publish. topic_walk. Qed.

(** ** One cycle *)

Lemma heartbeat_run (config : dict) (h : value) :
  dict_get config "hostname" = Some h ->
  heartbeat config = (heartbeat_events config h, inr tt).
Proof.
  intros Hh. unfold heartbeat, heartbeat_events, heartbeat_enabled, dict_mem, config_item, item.
  simpl. destruct (dict_get config "publish_online_status") as [flag|]; [|reflexivity].
  simpl. destruct (truthy flag); [|reflexivity].
  rewrite Hh. reflexivity.
Qed.

Lemma try_except_cons (e : event) (t : list event) (r : exn + unit) (handler : io unit) :
  try_except_KeyError (e :: t, r) handler
  = (e :: trace (try_except_KeyError (t, r) handler),
     outcome (try_except_KeyError (t, r) handler)).
Proof. destruct r as [[]|[]], handler; reflexivity. Qed.

(** The timer is started before anything else, whatever the configuration
    holds besides the period. *)
Lemma publish_pijuice_head (config : dict) (pijuice : pijuice_io) (period : value) :
  dict_get config "publish_period" = Some period ->
  exists rest, trace (publish_pijuice config pijuice) = TimerStart period :: rest.
Proof.
  intros Hp. unfold publish_pijuice, config_item, item. simpl. rewrite Hp. simpl.
  destruct (try_except_KeyError _ _) as [t r]. exists t. reflexivity.
Qed.

(** The shape of every cycle: the timer, the heartbeat if it is switched
    on, then the readings under the [try]. *)
Lemma publish_pijuice_run (config : dict) (pijuice : pijuice_io) (period h : value) :
  dict_get config "publish_period" = Some period ->
  dict_get config "hostname" = Some h ->
  let body := try_except_KeyError (publish_status config pijuice) (print skip_message) in
  publish_pijuice config pijuice
  = ((TimerStart period :: heartbeat_events config h ++ trace body)%list, outcome body).
Proof.
  intros Hp Hh body. unfold publish_pijuice, config_item, item. simpl. rewrite Hp. simpl.
  rewrite (heartbeat_run _ _ Hh). subst body. fold skip_message.
  unfold heartbeat_events. destruct (heartbeat_enabled config); simpl.
  - destruct (publish_status config pijuice) as [t r]. rewrite try_except_cons.
    destruct (try_except_KeyError (t, r) (print skip_message)). reflexivity.
  - destruct (publish_status config pijuice) as [t r].
    destruct (try_except_KeyError (t, r) (print skip_message)). reflexivity.
Qed.

Ltac split_andb H :=
  repeat match type of H with
         | (_ && _) = true =>
             let H' := fresh "T" in apply andb_prop in H; destruct H as [H H']
         end.

Ltac stop_here :=
  solve [ first [ exists 1%nat; reflexivity | exists 2%nat; reflexivity
                | exists 3%nat; reflexivity | exists 4%nat; reflexivity
                | exists 5%nat; reflexivity | exists 6%nat; reflexivity
                | exists 7%nat; reflexivity ] ].

(** With replies of the promised types, a missing key is a [KeyError] at
    the first call that lacks it; the calls before it have been made. *)
Lemma publish_status_skips (config : dict) (pijuice : pijuice_io) :
  well_typed pijuice = true -> lookup_fails pijuice = true ->
  exists n, publish_status config pijuice
            = (map Call (firstn n cycle_calls), inl KeyError).
Proof.
  unfold well_typed, lookup_fails, publish_status, call, item, config_item, getitem.
  intros T F. split_andb T.
  unfold reply_of, missing, dict_mem in *.
  destruct (pijuice GetStatus) as [| | | | | |d0]; try discriminate; simpl in *.
  destruct (dict_get d0 "data") as [[| | | | | |st]|]; try discriminate; simpl; [|stop_here].
  destruct (pijuice GetChargeLevel) as [| | | | | |d1]; try discriminate; simpl in *.
  destruct (dict_get d1 "data") as [x1|]; simpl; [|stop_here].
  destruct (pijuice GetBatteryVoltage) as [| | | | | |d2]; try discriminate; simpl in *.
  destruct (dict_get d2 "data") as [[]|]; try discriminate; simpl; [|stop_here].
  destruct (pijuice GetBatteryCurrent) as [| | | | | |d3]; try discriminate; simpl in *.
  destruct (dict_get d3 "data") as [[]|]; try discriminate; simpl; [|stop_here].
  destruct (pijuice GetBatteryTemperature) as [| | | | | |d4]; try discriminate; simpl in *.
  destruct (dict_get d4 "data") as [x4|]; simpl; [|stop_here].
  destruct (dict_get st "battery") as [b|]; simpl; [|stop_here].
  destruct (dict_get st "powerInput") as [pin|]; simpl; [|stop_here].
  destruct (dict_get st "powerInput5vIo") as [p5|]; simpl; [|stop_here].
  destruct (pijuice GetIoVoltage) as [| | | | | |d5]; try discriminate; simpl in *.
  destruct (dict_get d5 "data") as [[]|]; try discriminate; simpl; [|stop_here].
  destruct (pijuice GetIoCurrent) as [| | | | | |d6]; try discriminate; simpl in *.
  destruct (dict_get d6 "data") as [[]|]; try discriminate; simpl; stop_here.
Qed.

(** A cycle whose readings all arrive publishes them, the four electrical
    ones divided by 1000. *)
Lemma publish_status_publishes (config : dict) (pijuice : pijuice_io)
      (h status charge temp b pin p5 : value) (mv ma iomv ioma : Z) :
  dict_get config "hostname" = Some h ->
  getitem (pijuice GetStatus) "data" = inr status ->
  getitem (pijuice GetChargeLevel) "data" = inr charge ->
  getitem (pijuice GetBatteryVoltage) "data" = inr (VInt mv) ->
  getitem (pijuice GetBatteryCurrent) "data" = inr (VInt ma) ->
  getitem (pijuice GetBatteryTemperature) "data" = inr temp ->
  getitem status "battery" = inr b ->
  getitem status "powerInput" = inr pin ->
  getitem status "powerInput5vIo" = inr p5 ->
  getitem (pijuice GetIoVoltage) "data" = inr (VInt iomv) ->
  getitem (pijuice GetIoCurrent) "data" = inr (VInt ioma) ->
  publish_status config pijuice
  = ((map Call cycle_calls
      ++ [Publish (status_topic h)
            (dumps (VDict (status_document charge (VFloat mv (-3)) (VFloat ma (-3)) temp
                             b pin p5 (VFloat iomv (-3)) (VFloat ioma (-3)))))
            0 false])%list, inr tt).
Proof.
  intros Hh H0 H1 H2 H3 H4 H5 H6 H7 H8 H9.
  assert (Hh' : getitem (VDict config) "hostname" = inr h) by (simpl; now rewrite Hh).
  unfold publish_status, call, item, config_item, publish, lift.
  repeat (cbn -[dumps status_topic getitem];
          first [rewrite H0 | rewrite H1 | rewrite H2 | rewrite H3 | rewrite H4
                | rewrite H5 | rewrite H6 | rewrite H7 | rewrite H8 | rewrite H9
                | rewrite Hh']).
  reflexivity.
Qed.

Ltac onward := cbn -[getitem truediv1000 dumps status_topic].
Ltac lookup_stops n := exists n; split; [reflexivity | eapply getitem_exn; eassumption].
Ltac division_stops n :=
  exists n; split; [reflexivity | right; eapply truediv1000_exn; eassumption].

(** A cycle either reads everything and publishes the whole document, or
    stops at the first reading that fails, having published nothing. *)
Lemma publish_status_outcome (config : dict) (pijuice : pijuice_io) (h : value) :
  dict_get config "hostname" = Some h ->
  match outcome (publish_status config pijuice) with
  | inr _ =>
      exists charge mv ma temp b pin p5 iomv ioma,
        trace (publish_status config pijuice)
        = (map Call cycle_calls
           ++ [Publish (status_topic h)
                 (dumps (VDict (status_document charge mv ma temp b pin p5 iomv ioma)))
                 0 false])%list
  | inl e =>
      exists n, trace (publish_status config pijuice) = map Call (firstn n cycle_calls)
                /\ (e = KeyError \/ e = TypeError)
  end.
Proof.
  intros Hh.
  assert (Hh' : getitem (VDict config) "hostname" = inr h) by (simpl; now rewrite Hh).
  unfold publish_status, call, item, config_item, publish, lift. onward.
  destruct (getitem (pijuice GetStatus) "data") as [e|status] eqn:E0; onward;
    [lookup_stops 1%nat|].
  destruct (getitem (pijuice GetChargeLevel) "data") as [e|charge] eqn:E1; onward;
    [lookup_stops 2%nat|].
  destruct (getitem (pijuice GetBatteryVoltage) "data") as [e|x2] eqn:E2; onward;
    [lookup_stops 3%nat|].
  destruct (truediv1000 x2) as [e|mv] eqn:D2; onward; [division_stops 3%nat|].
  destruct (getitem (pijuice GetBatteryCurrent) "data") as [e|x3] eqn:E3; onward;
    [lookup_stops 4%nat|].
  destruct (truediv1000 x3) as [e|ma] eqn:D3; onward; [division_stops 4%nat|].
  destruct (getitem (pijuice GetBatteryTemperature) "data") as [e|temp] eqn:E4; onward;
    [lookup_stops 5%nat|].
  destruct (getitem status "battery") as [e|b] eqn:S1; onward; [lookup_stops 5%nat|].
  destruct (getitem status "powerInput") as [e|pin] eqn:S2; onward; [lookup_stops 5%nat|].
  destruct (getitem status "powerInput5vIo") as [e|p5] eqn:S3; onward;
    [lookup_stops 5%nat|].
  destruct (getitem (pijuice GetIoVoltage) "data") as [e|x5] eqn:E5; onward;
    [lookup_stops 6%nat|].
  destruct (truediv1000 x5) as [e|iomv] eqn:D5; onward; [division_stops 6%nat|].
  destruct (getitem (pijuice GetIoCurrent) "data") as [e|x6] eqn:E6; onward;
    [lookup_stops 7%nat|].
  destruct (truediv1000 x6) as [e|ioma] eqn:D6; onward; [division_stops 7%nat|].
  rewrite Hh'. onward. unfold status_document. eauto 12.
Qed.

Lemma filter_heartbeat_status (config : dict) (h : value) :
  filter is_status_publish (heartbeat_events config h) = [].
Proof.
  unfold heartbeat_events. destruct (heartbeat_enabled config); [|reflexivity].
  cbn [filter is_status_publish publish_to]. now rewrite service_topic_not_status.
Qed.

Lemma getitem_present (v : value) (k : string) (x : value) :
  getitem v k = inr x -> missing v k = false.
Proof.
  destruct v; simpl; try discriminate. unfold dict_mem.
  destruct (dict_get d k); [reflexivity|discriminate].
Qed.

Ltac fails_here := solve [eexists; reflexivity].

(** A missing key ends the cycle with an exception, whatever the types of
    the other replies. *)
Lemma publish_status_fails (config : dict) (pijuice : pijuice_io) :
  lookup_fails pijuice = true ->
  exists e, outcome (publish_status config pijuice) = inl e.
Proof.
  unfold lookup_fails, publish_status, call, item, config_item, lift.
  intros F. onward.
  destruct (getitem (pijuice GetStatus) "data") as [e|status] eqn:E0; onward;
    [fails_here|].
  destruct (getitem (pijuice GetChargeLevel) "data") as [e|charge] eqn:E1; onward;
    [fails_here|].
  destruct (getitem (pijuice GetBatteryVoltage) "data") as [e|x2] eqn:E2; onward;
    [fails_here|].
  destruct (truediv1000 x2) as [e|mv] eqn:D2; onward; [fails_here|].
  destruct (getitem (pijuice GetBatteryCurrent) "data") as [e|x3] eqn:E3; onward;
    [fails_here|].
  destruct (truediv1000 x3) as [e|ma] eqn:D3; onward; [fails_here|].
  destruct (getitem (pijuice GetBatteryTemperature) "data") as [e|temp] eqn:E4; onward;
    [fails_here|].
  destruct (getitem status "battery") as [e|b] eqn:S1; onward; [fails_here|].
  destruct (getitem status "powerInput") as [e|pin] eqn:S2; onward; [fails_here|].
  destruct (getitem status "powerInput5vIo") as [e|p5] eqn:S3; onward; [fails_here|].
  destruct (getitem (pijuice GetIoVoltage) "data") as [e|x5] eqn:E5; onward;
    [fails_here|].
  destruct (truediv1000 x5) as [e|iomv] eqn:D5; onward; [fails_here|].
  destruct (getitem (pijuice GetIoCurrent) "data") as [e|x6] eqn:E6; onward;
    [fails_here|].
  exfalso.
  rewrite (getitem_present _ _ _ E0), (getitem_present _ _ _ E1),
    (getitem_present _ _ _ E2), (getitem_present _ _ _ E3),
    (getitem_present _ _ _ E4), (getitem_present _ _ _ E5),
    (getitem_present _ _ _ E6), (getitem_present _ _ _ S1),
    (getitem_present _ _ _ S2), (getitem_present _ _ _ S3) in F.
  discriminate.
Qed.

(** Nothing goes to the status topic in a cycle with a missing key. *)
Lemma lookup_failure_never_publishes (config : dict) (pijuice : pijuice_io)
      (period h : value) :
  dict_get config "publish_period" = Some period ->
  dict_get config "hostname" = Some h ->
  lookup_fails pijuice = true ->
  filter is_status_publish (trace (publish_pijuice config pijuice)) = [].
Proof.
  intros Hp Hh F. rewrite (publish_pijuice_run _ _ _ _ Hp Hh). cbn [trace fst filter].
  change (is_status_publish (TimerStart period)) with false. cbv iota.
  rewrite filter_app, filter_heartbeat_status. cbn [app].
  destruct (publish_status_fails config pijuice F) as [e He].
  pose proof (publish_status_outcome config pijuice h Hh) as O.
  rewrite He in O. destruct O as (n & Hn & _).
  destruct (publish_status config pijuice) as [t r]. simpl in He, Hn. subst t r.
  destruct e; unfold try_except_KeyError, print, emit, trace; cbn [fst];
    rewrite ?filter_app, filter_calls by reflexivity; reflexivity.
Qed.

(** The status messages of a cycle: none, or the one whole document. *)
Lemma status_publishes_of_cycle (config : dict) (pijuice : pijuice_io) (period h : value) :
  dict_get config "publish_period" = Some period ->
  dict_get config "hostname" = Some h ->
  filter is_status_publish (trace (publish_pijuice config pijuice)) = []
  \/ exists charge mv ma temp b pin p5 iomv ioma,
       filter is_status_publish (trace (publish_pijuice config pijuice))
       = [Publish (status_topic h)
            (dumps (VDict (status_document charge mv ma temp b pin p5 iomv ioma)))
            0 false].
Proof.
  intros Hp Hh. rewrite (publish_pijuice_run _ _ _ _ Hp Hh). cbn [trace fst filter].
  change (is_status_publish (TimerStart period)) with false. cbv iota.
  rewrite filter_app, filter_heartbeat_status. cbn [app].
  pose proof (publish_status_outcome config pijuice h Hh) as O.
  destruct (publish_status config pijuice) as [t [e|[]]]; cbn [outcome trace fst snd] in O.
  - destruct O as (n & -> & _). left.
    destruct e; unfold try_except_KeyError, print, emit, trace; cbn [fst];
      rewrite ?filter_app, filter_calls by reflexivity; reflexivity.
  - destruct O as (charge & mv & ma & temp & b & pin & p5 & iomv & ioma & ->). right.
    exists charge, mv, ma, temp, b, pin, p5, iomv, ioma.
    unfold try_except_KeyError, trace; cbn [fst].
    rewrite filter_app, filter_calls by reflexivity.
    cbn [app filter is_status_publish publish_to]. now rewrite status_topic_ends.
Qed.

Lemma publish_pijuice_hat (config : dict) (r : readings) (period hostname : value) :
  dict_get config "publish_period" = Some period ->
  dict_get config "hostname" = Some hostname ->
  publish_pijuice config (hat r)
  = ((TimerStart period :: heartbeat_events config hostname
      ++ map Call cycle_calls
      ++ [Publish (status_topic hostname) (dumps (VDict (document_of r))) 0 false])%list,
     inr tt).
Proof.
  intros Hp Hh. rewrite (publish_pijuice_run _ _ _ _ Hp Hh).
  rewrite (publish_status_publishes config (hat r) hostname
             (VDict [ ("isFault", VBool false); ("isButton", VBool false);
                      ("battery", VStr (battery r));
                      ("powerInput", VStr (powerInput r));
                      ("powerInput5vIo", VStr (powerInput5vIo r)) ])
             (VInt (chargeLevel r)) (VInt (batteryTemperature r))
             (VStr (battery r)) (VStr (powerInput r)) (VStr (powerInput5vIo r))
             (batteryVoltage r) (batteryCurrent r) (ioVoltage r) (ioCurrent r));
    try reflexivity. exact Hh.
Qed.

Lemma status_publish_hat (config : dict) (r : readings) (period hostname : value) :
  dict_get config "publish_period" = Some period ->
  dict_get config "hostname" = Some hostname ->
  filter is_status_publish (trace (publish_pijuice config (hat r)))
  = [Publish (status_topic hostname) (dumps (VDict (document_of r))) 0 false].
Proof.
  intros Hp Hh. rewrite (publish_pijuice_hat _ _ _ _ Hp Hh). cbn [trace fst filter].
  change (is_status_publish (TimerStart period)) with false. cbv iota.
  rewrite !filter_app, filter_heartbeat_status, filter_calls by reflexivity.
  cbn [app filter is_status_publish publish_to]. now rewrite status_topic_ends.
Qed.

(** ** The timer *)

Lemma timer_after_app (t : option timer) (a b : list event) :
  timer_after t (a ++ b) = timer_after (timer_after t a) b.
Proof. apply fold_left_app. Qed.

Lemma timer_after_quiet (tr : list event) (t : option timer) :
  Forall (fun e => is_timer_event e = false) tr -> timer_after t tr = t.
Proof.
  intros H. revert t. induction H as [|e tr He _ IH]; intros t; [reflexivity|].
  change (timer_after t (e :: tr)) with (timer_after (timer_event t e) tr).
  rewrite IH. destruct e; simpl in *; congruence.
Qed.

(** After a cycle [timer_thread] holds a timer that was started and not
    cancelled, whatever it held before. *)
Lemma publish_pijuice_rearms (config : dict) (pijuice : pijuice_io) (period h : value)
      (t : option timer) :
  dict_get config "publish_period" = Some period ->
  dict_get config "hostname" = Some h ->
  timer_after t (trace (publish_pijuice config pijuice)) = Some Waiting.
Proof.
  intros Hp Hh. rewrite (publish_pijuice_run _ _ _ _ Hp Hh). cbn [trace fst].
  change (TimerStart period :: ?l) with ([TimerStart period] ++ l)%list.
  rewrite timer_after_app. apply timer_after_quiet, Forall_app. split.
  - apply never_timer_heartbeat.
  - apply never_timer_body.
Qed.

Lemma pending_after_app (i : option value) (a b : list event) :
  pending_after i (a ++ b) = pending_after (pending_after i a) b.
Proof. apply fold_left_app. Qed.

Lemma pending_after_quiet (tr : list event) (i : option value) :
  Forall (fun e => is_timer_event e = false) tr -> pending_after i tr = i.
Proof.
  intros H. revert i. induction H as [|e tr He _ IH]; intros i; [reflexivity|].
  change (pending_after i (e :: tr)) with (pending_after (pending_event i e) tr).
  rewrite IH. destruct e; simpl in *; congruence.
Qed.

(** The interval that is pending after a cycle is the configured period,
    whatever was pending before. *)
Lemma publish_pijuice_pending (config : dict) (pijuice : pijuice_io) (period h : value)
      (i : option value) :
  dict_get config "publish_period" = Some period ->
  dict_get config "hostname" = Some h ->
  pending_after i (trace (publish_pijuice config pijuice)) = Some period.
Proof.
  intros Hp Hh. rewrite (publish_pijuice_run _ _ _ _ Hp Hh). cbn [trace fst].
  change (TimerStart period :: ?l) with ([TimerStart period] ++ l)%list.
  rewrite pending_after_app. apply pending_after_quiet, Forall_app. split.
  - apply never_timer_heartbeat.
  - apply never_timer_body.
Qed.

(** After a cycle the timer is armed if and only if the configured period
    is a number. *)
Lemma cycle_rearms (config : dict) (lib : string) (pijuice : pijuice_io)
      (period h : value) (p : process) :
  dict_get config "publish_period" = Some period ->
  dict_get config "hostname" = Some h ->
  armed p = true ->
  armed (step config lib p (TimerFires pijuice)) = is_number period.
Proof.
  intros Hp Hh Ha. cbn [step]. rewrite Ha. unfold armed, on_timer.
  cbn [timer_thread pending].
  now rewrite (publish_pijuice_rearms _ _ _ _ _ Hp Hh),
    (publish_pijuice_pending _ _ _ _ _ Hp Hh).
Qed.

(** ** The process *)

Lemma main_status_step config lib (p : process) (i : input) :
  main_status (step config lib p i) = Running -> main_status p = Running.
Proof.
  destruct i; simpl.
  - destruct (armed p); simpl; auto.
  - destruct (main_status p) eqn:E; simpl; auto; congruence.
  - destruct (main_status p) eqn:E; simpl; auto; congruence.
Qed.

Lemma on_exit_run (config : dict) (h : value) :
  dict_get config "hostname" = Some h ->
  on_exit config (Some Waiting) = (exit_events h, inl (SystemExit 0)).
Proof.
  intros Hh. unfold on_exit, config_item, item, print, publish. simpl. now rewrite Hh.
Qed.

(** The handler before the first cycle: there is no timer to cancel. *)
Example on_exit_without_timer :
  on_exit stock_config None
  = ([Print "Exiting..."; Publish "pijuicemqtt/raspberrypi/service" "offline" 1 true],
     inl AttributeError).
Proof. reflexivity. Qed.

(** A period that is no number.  The main program runs its first cycle
    and stays in its loop, and [timer_thread] holds the timer that cycle
    started; but the thread of that timer has ended with [TypeError], no
    second cycle ever runs, and a firing is nothing the process can meet.
    The handler of the signal still finds a timer to cancel and join, and
    the process ends with status 0. *)
Example text_period_never_fires :
  let p := boot text_period (hat sample) in
  main_status p = Running
  /\ timer_thread p = Some Waiting
  /\ pending p = Some (VStr "30")
  /\ armed p = false
  /\ step text_period "1.8" p (TimerFires (hat sample)) = p
  /\ exit_status (step text_period "1.8" p Signal) = Some 0.
Proof. vm_compute. repeat split. Qed.

(** A period with a fraction: the timer is armed and the cycles go on;
    the clock of whole seconds has no tick for them. *)
Example float_period_fires :
  let p := boot float_period (hat sample) in
  armed p = true
  /\ armed (step float_period "1.8" p (TimerFires (hat sample))) = true
  /\ seconds (VFloat 25 (-1)) = None
  /\ seconds (VFloat 300 (-1)) = Some 30
  /\ seconds (VFloat 3 1) = Some 30.
Proof. vm_compute. repeat split. Qed.

Section Loaded.

Variable config : dict.
Variable library_version : string.
Variables period hostname : value.
Hypothesis Hperiod : dict_get config "publish_period" = Some period.
Hypothesis Hhostname : dict_get config "hostname" = Some hostname.

Lemma main_arms (pijuice : pijuice_io) :
  outcome (main config pijuice) = inr tt ->
  timer_after None (trace (main config pijuice)) = Some Waiting.
Proof.
  unfold main, config_item, item.
  destruct (getitem (VDict config) "mqtt") as [e|mqtt]; [discriminate|].
  cbn [lift bind app].
  destruct (getitem mqtt "username") as [e|u]; [discriminate|].
  destruct (getitem mqtt "password") as [e|pw]; [discriminate|].
  destruct (getitem mqtt "broker") as [e|b]; [discriminate|].
  destruct (getitem mqtt "port") as [e|port]; [discriminate|].
  cbn [lift bind app emit print].
  destruct (publish_pijuice config pijuice) as [t r] eqn:E. intros _.
  cbn [trace fst].
  change (?a :: ?b :: ?c :: ?d :: ?e :: t) with ([a; b; c; d; e] ++ t)%list.
  rewrite timer_after_app.
  change t with (trace (t, r)). rewrite <- E.
  now apply publish_pijuice_rearms with (period := period) (h := hostname).
Qed.

Lemma serving_boot (pijuice : pijuice_io) : serving (boot config pijuice).
Proof.
  unfold serving, boot, on_main. cbn [main_status timer_thread log start app].
  intros H. split.
  - apply main_arms. destruct (outcome (main config pijuice)) as [[]|[]];
      simpl in H; try discriminate. reflexivity.
  - apply never_offline_main.
Qed.

Lemma serving_step (p : process) (i : input) :
  serving p -> serving (step config library_version p i).
Proof.
  intros I H. destruct (I (main_status_step _ _ _ _ H)) as [Ht Hl].
  destruct i as [pijuice|pijuice|]; simpl in *.
  - destruct (armed p); [|split; assumption]. simpl in *. split.
    + now apply publish_pijuice_rearms with (period := period) (h := hostname).
    + apply Forall_app. split; [exact Hl | apply never_offline_publish_pijuice].
  - destruct (main_status p); try (split; assumption). simpl in *. split.
    + rewrite timer_after_quiet; [exact Ht | apply never_timer_mqtt_on_connect].
    + apply Forall_app. split; [exact Hl | apply never_offline_mqtt_on_connect].
  - destruct (main_status p); try (split; assumption). simpl in H.
    rewrite Ht, (on_exit_run _ _ Hhostname) in H. discriminate.
Qed.

Lemma serving_run (inputs : list input) (p : process) :
  serving p -> serving (run config library_version p inputs).
Proof.
  revert p. induction inputs as [|i inputs IH]; intros p I; [exact I|].
  simpl. apply IH, serving_step, I.
Qed.

(** Once the handler has run, nothing moves any more. *)
Lemma run_stopped (inputs : list input) (p : process) (code : Z) :
  main_status p = Exited code -> timer_thread p = Some Cancelled ->
  run config library_version p inputs = p.
Proof.
  intros Hm Ht. induction inputs as [|i inputs IH]; [reflexivity|].
  simpl. replace (step config library_version p i) with p; [exact IH|].
  destruct i; simpl; unfold armed; rewrite ?Hm, ?Ht; reflexivity.
Qed.

Lemma shutdown (pijuice : pijuice_io) (before after : list input) :
  let p := run config library_version (boot config pijuice) before in
  let q := run config library_version p (Signal :: after) in
  main_status p = Running ->
  log q = (log p ++ exit_events hostname)%list
  /\ filter is_offline_publish (log q)
     = [Publish (service_topic hostname) "offline" 1 true]
  /\ filter is_status_publish (log q) = filter is_status_publish (log p)
  /\ timer_thread p = Some Waiting
  /\ timer_thread q = Some Cancelled
  /\ main_status q = Exited 0
  /\ exit_status q = Some 0.
Proof.
  intros p q Hrun.
  destruct (serving_run before _ (serving_boot pijuice) Hrun) as [Ht Hl].
  fold p in Ht, Hl.
  assert (Hq : q = on_main p (on_exit config (Some Waiting))).
  { subst q. simpl. rewrite Hrun, Ht.
    apply run_stopped with (code := 0); simpl; rewrite on_exit_run with (h := hostname);
      auto. now rewrite Ht. }
  rewrite Hq. unfold on_main, exit_status, timer_alive.
  rewrite (on_exit_run _ _ Hhostname). cbn [log timer_thread main_status trace outcome fst snd].
  rewrite Ht. repeat split.
  - rewrite filter_app, (filter_quiet _ _ Hl). reflexivity.
  - rewrite filter_app. unfold exit_events. cbn [filter is_status_publish publish_to].
    rewrite service_topic_not_status. apply app_nil_r.
Qed.

End Loaded.

(** ** Connecting *)

Lemma autoconfig_metadata (config : dict) (lib : string) (pj1 pj2 : pijuice_io) :
  battery_capacity pj1 = battery_capacity pj2 ->
  firmware_version pj1 = firmware_version pj2 ->
  autoconfig config lib pj1 = autoconfig config lib pj2.
Proof.
  unfold battery_capacity, firmware_version, metadata, autoconfig, call, item, print.
  intros Hc Hf.
  cbn -[getitem publish_autoconfig config_item contains py_int base_payload].
  destruct (getitem (pj1 GetBatteryProfile) "data") as [e1|d1],
           (getitem (pj2 GetBatteryProfile) "data") as [e2|d2];
    cbn -[getitem publish_autoconfig config_item contains py_int base_payload].
  - congruence.
  - rewrite <- Hc. reflexivity.
  - rewrite Hc. reflexivity.
  - rewrite Hc. destruct (getitem d2 "capacity") as [e|c]; [reflexivity|].
    cbn -[getitem publish_autoconfig config_item contains py_int base_payload].
    destruct (getitem (pj1 GetFirmwareVersion) "data") as [e1|f1],
             (getitem (pj2 GetFirmwareVersion) "data") as [e2|f2];
      cbn -[getitem publish_autoconfig config_item contains py_int base_payload].
    + congruence.
    + rewrite <- Hf. reflexivity.
    + rewrite Hf. reflexivity.
    + rewrite Hf. reflexivity.
Qed.

Ltac announce :=
  cbn -[py_int base_payload dumps discovery_topic dict_merge payload_batteryCharge
        payload_powerInput5vIo payload_batteryTemperature payload_batteryStatus dict_set].

Lemma autoconfig_run (config : dict) (lib : string) (pijuice : pijuice_io)
      (hostname topic capacity version : value) (ha base : dict) :
  dict_get config "hostname" = Some hostname ->
  dict_get config "homeassistant" = Some (VDict ha) ->
  dict_get ha "topic" = Some topic ->
  battery_capacity pijuice = inr capacity ->
  firmware_version pijuice = inr version ->
  with_expire_after ha (base_payload lib hostname capacity version) = inr base ->
  autoconfig config lib pijuice
  = ((Print "Publishing Home Assistant MQTT autoconfig"
      :: Call GetBatteryProfile :: Call GetFirmwareVersion
      :: autoconfig_events topic hostname base)%list, inr tt).
Proof.
  unfold battery_capacity, firmware_version, metadata, with_expire_after.
  intros Hh Hha Ht Hc Hf Hb.
  unfold autoconfig, publish_autoconfig, call, item, print, config_item, publish.
  cbn -[getitem contains py_int base_payload dumps discovery_topic dict_merge].
  destruct (getitem (pijuice GetBatteryProfile) "data") as [|d]; [discriminate|].
  cbn -[getitem contains py_int base_payload dumps discovery_topic dict_merge].
  rewrite Hc.
  cbn -[getitem contains py_int base_payload dumps discovery_topic dict_merge].
  destruct (getitem (pijuice GetFirmwareVersion) "data") as [|f]; [discriminate|].
  cbn -[getitem contains py_int base_payload dumps discovery_topic dict_merge].
  rewrite Hf.
  cbn -[contains py_int base_payload dumps discovery_topic dict_merge].
  rewrite Hh, Hha. announce.
  unfold dict_mem. destruct (dict_get ha "expire_after") as [x|].
  - announce. destruct (py_int x) as [|n]; [discriminate|]. injection Hb as <-.
    announce. rewrite Ht. reflexivity.
  - injection Hb as <-. announce. rewrite Ht. reflexivity.
Qed.

Lemma mqtt_on_connect_quiet (config : dict) (lib : string) (pijuice : pijuice_io)
      (hostname sensor : value) (ha : dict) :
  dict_get config "hostname" = Some hostname ->
  dict_get config "homeassistant" = Some (VDict ha) ->
  dict_get ha "sensor" = Some sensor ->
  truthy sensor = false ->
  mqtt_on_connect config lib pijuice
  = ([WillSet (service_topic hostname) "offline" 1 true;
      Publish (service_topic hostname) "online" 1 true], inr tt).
Proof.
  intros Hh Hha Hs Hoff.
  unfold mqtt_on_connect, config_item, item, will_set, publish.
  cbn -[autoconfig service_topic]. rewrite Hh, Hha.
  cbn -[autoconfig service_topic]. rewrite Hs.
  cbn -[autoconfig service_topic]. rewrite Hoff. reflexivity.
Qed.

(** Reconnecting: the second acknowledgement appends what the first did. *)
Example reconnect_sample :
  let p := step stock_config "1.8" (boot stock_config (hat sample)) (Connack (hat sample)) in
  let q := step stock_config "1.8" p (Connack (hat other_day)) in
  log q = (log p ++ trace (mqtt_on_connect stock_config "1.8" (hat sample)))%list.
Proof. vm_compute. reflexivity. Qed.

(** * The claims *)

(** ** Scheduling *)

(** C1, as the specification states it, fails on a concrete cycle.  With
    the stock period of 30 seconds and a hat that needs a second per call,
    the callback starts its timer first, runs for 7 seconds, and the next
    cycle starts 23 seconds after this one completed, not 30.  With a
    broker that needs 40 seconds for a message, the next cycle starts 10
    seconds before this one completes: the two overlap. *)
Lemma rearm_after_completion_refuted :
  hd_error (trace (publish_pijuice stock_config (hat sample)))
  = Some (TimerStart (VInt 30))
  /\ gap slow_hat 0 (trace (publish_pijuice stock_config (hat sample))) = Some 23
  /\ gap slow_hat 0 (trace (publish_pijuice stock_config (hat sample))) <> Some 30
  /\ gap slow_broker 0 (trace (publish_pijuice stock_config (hat sample))) = Some (-10).
Proof. vm_compute. repeat split; congruence. Qed.

(** C1 (amended): for every loaded configuration whose [publish_period] is
    a whole number [p] and every cycle, the timer for the next invocation
    is started as the first action of the current one and fires [p] seconds
    (at once when [p] is negative) after the current invocation started:
    the distance between the starts of consecutive cycles is the period,
    and the distance between the completion of a cycle and the start of
    the next is the period less the time the cycle took, whatever the
    single actions cost. *)
Theorem timer_runs_from_start_of_cycle
        (cost : event -> Z) (node : string) (override : dict) (pijuice : pijuice_io)
        (p t0 : Z) :
  dict_get (dict_merge (default_config node) override) "publish_period" = Some (VInt p) ->
  hd_error (trace (publish_pijuice (dict_merge (default_config node) override) pijuice))
  = Some (TimerStart (VInt p))
  /\ timer_fires cost t0
       (trace (publish_pijuice (dict_merge (default_config node) override) pijuice))
     = Some (t0 + Z.max 0 p)
  /\ gap cost t0
       (trace (publish_pijuice (dict_merge (default_config node) override) pijuice))
     = Some (Z.max 0 p
             - duration cost
                 (trace (publish_pijuice (dict_merge (default_config node) override)
                                         pijuice))).
Proof.
  intros Hp.
  destruct (publish_pijuice_head _ pijuice _ Hp) as [rest E]. rewrite E.
  unfold gap, completes. cbn [hd_error timer_fires seconds option_map].
  repeat split. f_equal. lia.
Qed.

Lemma timer_runs_from_start_of_cycle_witness :
  dict_get (dict_merge (default_config "raspberrypi") []) "publish_period"
  = Some (VInt 30)
  /\ timer_fires slow_broker 100
       (trace (publish_pijuice (dict_merge (default_config "raspberrypi") [])
                               (hat sample)))
     = Some (100 + Z.max 0 30).
Proof.
  split; [reflexivity|].
  apply (timer_runs_from_start_of_cycle slow_broker "raspberrypi" [] (hat sample) 30 100).
  reflexivity.
Defined.

(** C10: every invocation of [publish_pijuice], under every loaded
    configuration and whatever the hat answers, starts the timer of the
    next invocation as its first event, with the configured period for an
    interval, and touches no timer afterwards.  So when the timer of an
    armed process fires, the process is armed again after the cycle,
    whether the cycle published, skipped or raised, provided the period is
    a number.  The period is what decides: with a period that is no number
    (the text "30", say) the thread of the new timer ends with [TypeError],
    and after the cycle no timer is armed, whatever the cycle did. *)
Theorem timer_armed_first
        (node : string) (override : dict) (lib : string) (pijuice : pijuice_io) :
  exists period rest,
    dict_get (dict_merge (default_config node) override) "publish_period" = Some period
    /\ trace (publish_pijuice (dict_merge (default_config node) override) pijuice)
       = TimerStart period :: rest
    /\ Forall (fun e => is_timer_event e = false) rest
    /\ (is_number period = true ->
        forall p, armed p = true ->
          armed (step (dict_merge (default_config node) override) lib p
                      (TimerFires pijuice))
          = true)
    /\ (is_number period = false ->
        forall p,
          armed (step (dict_merge (default_config node) override) lib p
                      (TimerFires pijuice))
          = false).
Proof.
  destruct (loaded_period node override) as [period Hp].
  destruct (loaded_hostname node override) as [hostname Hh].
  exists period. eexists. split; [exact Hp|]. split; [|split; [|split]].
  - rewrite (publish_pijuice_run _ _ _ _ Hp Hh). reflexivity.
  - apply Forall_app. split; [apply never_timer_heartbeat | apply never_timer_body].
  - intros N p Ha. now rewrite (cycle_rearms _ _ _ _ _ _ Hp Hh Ha).
  - intros N p. destruct (armed p) eqn:Ha.
    + now rewrite (cycle_rearms _ _ _ _ _ _ Hp Hh Ha).
    + cbn [step]. now rewrite Ha.
Qed.

Lemma timer_armed_first_witness :
  armed (boot (dict_merge (default_config "raspberrypi") []) (hat sample)) = true
  /\ armed (step (dict_merge (default_config "raspberrypi") []) "1.8"
                 (boot (dict_merge (default_config "raspberrypi") []) (hat sample))
                 (TimerFires (failing GetStatus (hat sample))))
     = true.
Proof.
  split; [reflexivity|].
  destruct (timer_armed_first "raspberrypi" [] "1.8" (failing GetStatus (hat sample)))
    as (period & rest & Hp & _ & _ & A & _).
  apply A; [|reflexivity].
  injection Hp as <-. reflexivity.
Defined.

(** ** The publish cycle *)

(** C2: under every loaded configuration, a cycle in which one of the
    lookups behind the nine fields meets a missing key publishes nothing on
    the status topic.  The next cycle is scheduled as after any other
    cycle: when the configured period is a number and the timer of an armed
    process fires into such a cycle, the process is armed again after it.
    When the replies of the hat are of the types the library promises, the
    missing key is what ends the cycle: it makes the calls up to that one,
    prints the skip message and returns.  Besides, whatever the hat
    answers, the status messages of a cycle are none or the one whole
    document of nine fields. *)
Theorem read_failure_skips_cycle
        (node : string) (override : dict) (lib : string) (pijuice : pijuice_io) :
  lookup_fails pijuice = true ->
  exists period hostname,
    filter is_status_publish
      (trace (publish_pijuice (dict_merge (default_config node) override) pijuice))
    = []
    /\ dict_get (dict_merge (default_config node) override) "publish_period"
       = Some period
    /\ (is_number period = true ->
        forall p, armed p = true ->
          armed (step (dict_merge (default_config node) override) lib p
                      (TimerFires pijuice))
          = true)
    /\ (well_typed pijuice = true ->
        exists n,
          publish_pijuice (dict_merge (default_config node) override) pijuice
          = ((TimerStart period
              :: heartbeat_events (dict_merge (default_config node) override) hostname
              ++ map Call (firstn n cycle_calls) ++ [Print skip_message])%list, inr tt))
    /\ (forall other,
          filter is_status_publish
            (trace (publish_pijuice (dict_merge (default_config node) override) other))
          = []
          \/ exists charge mv ma temp b pin p5 iomv ioma,
               filter is_status_publish
                 (trace (publish_pijuice (dict_merge (default_config node) override)
                                         other))
               = [Publish (status_topic hostname)
                    (dumps (VDict (status_document charge mv ma temp b pin p5 iomv ioma)))
                    0 false]).
Proof.
  intros F. set (config := dict_merge (default_config node) override).
  destruct (loaded_period node override) as [period Hp].
  destruct (loaded_hostname node override) as [hostname Hh].
  fold config in Hp, Hh. exists period, hostname.
  split; [now apply lookup_failure_never_publishes with (period := period) (h := hostname)|].
  split; [exact Hp|]. split; [|split].
  - intros N p Ha. now rewrite (cycle_rearms _ _ _ _ _ _ Hp Hh Ha).
  - intros T. destruct (publish_status_skips config pijuice T F) as [n Hn].
    exists n. rewrite (publish_pijuice_run _ _ _ _ Hp Hh), Hn. reflexivity.
  - intros other. now apply status_publishes_of_cycle with (period := period).
Qed.

Lemma read_failure_skips_cycle_witness :
  lookup_fails (failing GetBatteryCurrent (hat sample)) = true
  /\ exists period hostname,
       filter is_status_publish
         (trace (publish_pijuice (dict_merge (default_config "raspberrypi") [])
                                 (failing GetBatteryCurrent (hat sample))))
       = []
       /\ armed (step (dict_merge (default_config "raspberrypi") []) "1.8"
                      (boot (dict_merge (default_config "raspberrypi") []) (hat sample))
                      (TimerFires (failing GetBatteryCurrent (hat sample))))
          = true
       /\ exists n,
            publish_pijuice (dict_merge (default_config "raspberrypi") [])
                            (failing GetBatteryCurrent (hat sample))
            = ((TimerStart period
                :: heartbeat_events (dict_merge (default_config "raspberrypi") [])
                                    hostname
                ++ map Call (firstn n cycle_calls) ++ [Print skip_message])%list,
               inr tt).
Proof.
  split; [reflexivity|].
  destruct (read_failure_skips_cycle "raspberrypi" [] "1.8"
              (failing GetBatteryCurrent (hat sample)) eq_refl)
    as (period & hostname & Q & Hp & A & L & _).
  exists period, hostname. split; [exact Q|]. split; [|exact (L eq_refl)].
  apply A; [|reflexivity].
  injection Hp as <-. reflexivity.
Defined.

(** A reply of the wrong type ahead of the missing key: the cycle raises
    and prints nothing, and still publishes nothing. *)
Example ill_typed_reply :
  publish_pijuice stock_config
    (fun g => match g with
              | GetBatteryVoltage => reply (VStr "4050")
              | g => failing GetIoCurrent (hat sample) g
              end)
  = ([TimerStart (VInt 30); Call GetStatus; Call GetChargeLevel; Call GetBatteryVoltage],
     inl TypeError).
Proof. reflexivity. Qed.

(** C3, as the specification states it, fails on its own worked example.
    With the stock configuration and the readings of the example the cycle
    publishes one status message, and its payload is not the text the
    specification gives: [json.dumps] with its default separators puts a
    blank after every comma and every colon, which makes 223 characters
    where the specification writes 206. *)
Lemma status_payload_has_blanks :
  filter is_status_publish (trace (publish_pijuice stock_config (hat sample)))
  = [Publish "pijuicemqtt/raspberrypi/status" (dumps (VDict (document_of sample)))
       0 false]
  /\ dumps (VDict (document_of sample)) <> sample_text_compact
  /\ String.length (dumps (VDict (document_of sample))) = 223%nat
  /\ String.length sample_text_compact = 206%nat.
Proof.
  split; [vm_compute; reflexivity|]. split; [|split; vm_compute; reflexivity].
  intros H. apply (f_equal String.length) in H. vm_compute in H. discriminate H.
Qed.

(** C3 (amended): under every loaded configuration, a cycle in which the
    hat answers every call publishes exactly one message on the status
    topic, with qos 0 and not retained: the JSON text of the nine fields,
    the battery and I/O voltages and currents divided by 1000, as
    [json.dumps] prints it with its default separators.  For the readings
    of the worked example that text is [sample_text], with a blank after
    every comma and colon; it is the document of the specification up to
    these blanks, that is, once the white space outside strings is
    removed. *)
Theorem status_payload (node : string) (override : dict) (r : readings) :
  exists period hostname,
    publish_pijuice (dict_merge (default_config node) override) (hat r)
    = ((TimerStart period
        :: heartbeat_events (dict_merge (default_config node) override) hostname
        ++ map Call cycle_calls
        ++ [Publish (status_topic hostname) (dumps (VDict (document_of r))) 0 false])%list,
       inr tt)
    /\ filter is_status_publish
         (trace (publish_pijuice (dict_merge (default_config node) override) (hat r)))
       = [Publish (status_topic hostname) (dumps (VDict (document_of r))) 0 false]
    /\ dumps (VDict (document_of sample)) = sample_text
    /\ json_compact false false (dumps (VDict (document_of sample))) = sample_text_compact.
Proof.
  destruct (loaded_period node override) as [period Hp].
  destruct (loaded_hostname node override) as [hostname Hh].
  exists period, hostname.
  split; [now apply publish_pijuice_hat|].
  split; [now apply status_publish_hat with (period := period)|].
  split; vm_compute; reflexivity.
Qed.

(** C9: under every loaded configuration with [publish_online_status]
    switched on, the second event of a cycle, right after the timer, is the
    retained "online" message on the availability topic; every call of the
    hat comes later.  So a cycle that aborts on a failed reading has still
    published the heartbeat, and nothing on the status topic. *)
Theorem heartbeat_precedes_readings
        (node : string) (override : dict) (pijuice : pijuice_io) :
  heartbeat_enabled (dict_merge (default_config node) override) = true ->
  exists period hostname,
    trace (publish_pijuice (dict_merge (default_config node) override) pijuice)
    = TimerStart period :: Publish (service_topic hostname) "online" 1 true
        :: trace (try_except_KeyError
                    (publish_status (dict_merge (default_config node) override) pijuice)
                    (print skip_message))
    /\ (forall i g,
          nth_error (trace (publish_pijuice (dict_merge (default_config node) override)
                                            pijuice)) i
          = Some (Call g) -> (2 <= i)%nat)
    /\ (forall e,
          outcome (publish_status (dict_merge (default_config node) override) pijuice)
          = inl e ->
          In (Publish (service_topic hostname) "online" 1 true)
             (trace (publish_pijuice (dict_merge (default_config node) override) pijuice))
          /\ filter is_status_publish
               (trace (publish_pijuice (dict_merge (default_config node) override)
                                       pijuice))
             = []).
Proof.
  set (config := dict_merge (default_config node) override). intros Hon.
  destruct (loaded_period node override) as [period Hp].
  destruct (loaded_hostname node override) as [hostname Hh].
  fold config in Hp, Hh. exists period, hostname.
  rewrite (publish_pijuice_run _ _ _ _ Hp Hh). unfold heartbeat_events. rewrite Hon.
  cbn [trace fst app]. split; [reflexivity|]. split.
  - intros [|[|i]] g H; simpl in H; try discriminate. lia.
  - intros e He. split; [right; left; reflexivity|].
    pose proof (publish_status_outcome config pijuice hostname Hh) as O.
    rewrite He in O. destruct O as (n & Hn & _).
    destruct (publish_status config pijuice) as [t r]. simpl in He, Hn. subst t r.
    cbn [filter is_status_publish publish_to]. rewrite service_topic_not_status.
    destruct e; unfold try_except_KeyError, print, emit, trace; cbn [fst];
      rewrite ?filter_app, filter_calls by reflexivity; reflexivity.
Qed.

Lemma heartbeat_precedes_readings_witness :
  heartbeat_enabled
    (dict_merge (default_config "raspberrypi") [("publish_online_status", VBool true)])
  = true
  /\ exists period hostname,
       trace (publish_pijuice
                (dict_merge (default_config "raspberrypi")
                            [("publish_online_status", VBool true)])
                (failing GetStatus (hat sample)))
       = TimerStart period :: Publish (service_topic hostname) "online" 1 true
           :: trace (try_except_KeyError
                       (publish_status
                          (dict_merge (default_config "raspberrypi")
                                      [("publish_online_status", VBool true)])
                          (failing GetStatus (hat sample)))
                       (print skip_message)).
Proof.
  split; [reflexivity|].
  destruct (heartbeat_precedes_readings "raspberrypi"
              [("publish_online_status", VBool true)]
              (failing GetStatus (hat sample)) eq_refl) as (period & hostname & E & _).
  exists period, hostname. exact E.
Defined.

(** The heartbeat of an aborted cycle, in full. *)
Example heartbeat_sample :
  publish_pijuice with_heartbeat (failing GetStatus (hat sample))
  = ([TimerStart (VInt 30);
      Publish "pijuicemqtt/raspberrypi/service" "online" 1 true;
      Call GetStatus; Print skip_message], inr tt).
Proof. reflexivity. Qed.

(** ** Shutdown *)

(** C4: under every loaded configuration, when the termination signal
    arrives while the main thread is in its loop (after the first cycle of
    the main program and any number of timer firings and connection
    acknowledgements), the handler appends exactly its four events to the
    log: the message, one "offline" publish on the availability topic with
    qos 1 and the retain flag, the cancellation of the waiting timer and
    the join.  It is the only "offline" publish of the whole log, no status
    message follows whatever reaches the process afterwards, and the
    process ends with status 0. *)
Theorem signal_shuts_down
        (node : string) (override : dict) (lib : string) (pijuice : pijuice_io)
        (before after : list input) :
  main_status (run (dict_merge (default_config node) override) lib
                   (boot (dict_merge (default_config node) override) pijuice) before)
  = Running ->
  let config := dict_merge (default_config node) override in
  let p := run config lib (boot config pijuice) before in
  let q := run config lib p (Signal :: after) in
  exists hostname,
    dict_get config "hostname" = Some hostname
    /\ log q = (log p ++ exit_events hostname)%list
    /\ filter is_offline_publish (log q)
       = [Publish (service_topic hostname) "offline" 1 true]
    /\ filter is_status_publish (log q) = filter is_status_publish (log p)
    /\ timer_thread p = Some Waiting
    /\ timer_thread q = Some Cancelled
    /\ main_status q = Exited 0
    /\ exit_status q = Some 0.
Proof.
  intros Hrun config p q.
  destruct (loaded_period node override) as [period Hp].
  destruct (loaded_hostname node override) as [hostname Hh].
  exists hostname. split; [exact Hh|].
  exact (shutdown config lib period hostname Hp Hh pijuice before after Hrun).
Qed.

Lemma signal_shuts_down_witness :
  main_status (run (dict_merge (default_config "raspberrypi") []) "1.8"
                   (boot (dict_merge (default_config "raspberrypi") []) (hat sample))
                   busy_morning)
  = Running
  /\ exists hostname,
       filter is_offline_publish
         (log (run (dict_merge (default_config "raspberrypi") []) "1.8"
                 (run (dict_merge (default_config "raspberrypi") []) "1.8"
                      (boot (dict_merge (default_config "raspberrypi") []) (hat sample))
                      busy_morning)
                 [Signal; TimerFires (hat sample); Connack (hat sample); Signal]))
       = [Publish (service_topic hostname) "offline" 1 true]
       /\ exit_status
            (run (dict_merge (default_config "raspberrypi") []) "1.8"
               (run (dict_merge (default_config "raspberrypi") []) "1.8"
                    (boot (dict_merge (default_config "raspberrypi") []) (hat sample))
                    busy_morning)
               [Signal; TimerFires (hat sample); Connack (hat sample); Signal])
          = Some 0.
Proof.
  split; [reflexivity|].
  destruct (signal_shuts_down "raspberrypi" [] "1.8" (hat sample) busy_morning
              [TimerFires (hat sample); Connack (hat sample); Signal] eq_refl)
    as (hostname & _ & _ & Hoff & _ & _ & _ & _ & Hexit).
  exists hostname. split; assumption.
Defined.

(** ** Connecting *)

(** C7: under every loaded configuration and whatever the hat answers, the
    first event of [mqtt_on_connect] registers the last will ("offline",
    qos 1, retained) on the availability topic and the second publishes
    "online" (qos 1, retained) on the same topic; every autodiscovery
    document comes after these two. *)
Theorem will_then_online
        (node : string) (override : dict) (lib : string) (pijuice : pijuice_io) :
  exists hostname rest,
    dict_get (dict_merge (default_config node) override) "hostname" = Some hostname
    /\ trace (mqtt_on_connect (dict_merge (default_config node) override) lib pijuice)
       = WillSet (service_topic hostname) "offline" 1 true
         :: Publish (service_topic hostname) "online" 1 true :: rest
    /\ filter is_autoconfig_publish
         (trace (mqtt_on_connect (dict_merge (default_config node) override) lib pijuice))
       = filter is_autoconfig_publish rest.
Proof.
  set (config := dict_merge (default_config node) override).
  destruct (loaded_hostname node override) as [hostname Hh]. fold config in Hh.
  assert (E : exists rest,
             trace (mqtt_on_connect config lib pijuice)
             = WillSet (service_topic hostname) "offline" 1 true
               :: Publish (service_topic hostname) "online" 1 true :: rest).
  { unfold mqtt_on_connect, will_set, publish.
    rewrite (config_item_some _ _ _ Hh), bind_ret, bind_emit, bind_ret, bind_emit.
    eexists. reflexivity. }
  destruct E as [rest E]. exists hostname, rest. split; [exact Hh|]. split; [exact E|].
  rewrite E. cbn [filter is_autoconfig_publish publish_to].
  now rewrite service_topic_not_config.
Qed.

(** C5: two runs of [mqtt_on_connect] under the same configuration and
    library version, on hats that agree on the battery capacity and the
    firmware version and may differ in everything else, perform the same
    events with the same result.  When the announcement goes through, the
    autodiscovery messages of either run are the four documents of
    [autoconfig_events]: fixed topics and unique ids, the keys of the base
    document followed by those of the sensor, serialised by [dumps]. *)
Theorem autoconfig_is_stable
        (config : dict) (lib : string) (pj1 pj2 : pijuice_io)
        (hostname topic capacity version : value) (ha base : dict) :
  battery_capacity pj1 = battery_capacity pj2 ->
  firmware_version pj1 = firmware_version pj2 ->
  mqtt_on_connect config lib pj1 = mqtt_on_connect config lib pj2
  /\ (dict_get config "hostname" = Some hostname ->
      dict_get config "homeassistant" = Some (VDict ha) ->
      dict_get ha "topic" = Some topic ->
      (exists sensor, dict_get ha "sensor" = Some sensor /\ truthy sensor = true) ->
      battery_capacity pj1 = inr capacity ->
      firmware_version pj1 = inr version ->
      with_expire_after ha (base_payload lib hostname capacity version) = inr base ->
      filter is_autoconfig_publish (trace (mqtt_on_connect config lib pj1))
      = autoconfig_events topic hostname base
      /\ filter is_autoconfig_publish (trace (mqtt_on_connect config lib pj2))
         = autoconfig_events topic hostname base).
Proof.
  intros Hc Hf.
  assert (E : mqtt_on_connect config lib pj1 = mqtt_on_connect config lib pj2).
  { unfold mqtt_on_connect. now rewrite (autoconfig_metadata config lib pj1 pj2 Hc Hf). }
  split; [exact E|].
  intros Hh Hha Ht (sensor & Hs & Hon) Hcap Hver Hbase.
  rewrite <- E.
  enough (G : filter is_autoconfig_publish (trace (mqtt_on_connect config lib pj1))
              = autoconfig_events topic hostname base) by (split; exact G).
  unfold mqtt_on_connect, config_item, item, will_set, publish.
  cbn -[autoconfig service_topic]. rewrite Hh, Hha.
  cbn -[autoconfig service_topic]. rewrite Hs.
  cbn -[autoconfig service_topic]. rewrite Hon.
  rewrite (autoconfig_run config lib pj1 hostname topic capacity version ha base)
    by assumption.
  cbn [trace fst filter is_autoconfig_publish publish_to autoconfig_events app].
  rewrite service_topic_not_config, !discovery_topic_ends. reflexivity.
Qed.

Lemma autoconfig_is_stable_witness :
  battery_capacity (hat sample) = battery_capacity (hat other_day)
  /\ firmware_version (hat sample) = firmware_version (hat other_day)
  /\ mqtt_on_connect stock_config "1.8" (hat sample)
     = mqtt_on_connect stock_config "1.8" (hat other_day)
  /\ filter is_autoconfig_publish
       (trace (mqtt_on_connect stock_config "1.8" (hat other_day)))
     = autoconfig_events (VStr "homeassistant") (VStr "raspberrypi")
         (base_payload "1.8" (VStr "raspberrypi") (VInt 1820) (VStr "1.6")).
Proof.
  split; [reflexivity|]. split; [reflexivity|].
  destruct (autoconfig_is_stable stock_config "1.8" (hat sample) (hat other_day)
              (VStr "raspberrypi") (VStr "homeassistant") (VInt 1820) (VStr "1.6")
              [("topic", VStr "homeassistant"); ("sensor", VBool true)]
              (base_payload "1.8" (VStr "raspberrypi") (VInt 1820) (VStr "1.6"))
              eq_refl eq_refl) as [E D].
  split; [exact E|].
  apply D; try reflexivity. exists (VBool true). split; reflexivity.
Defined.

(** The first autodiscovery document of the stock configuration, byte for
    byte. *)
Example batteryCharge_document :
  nth_error (trace (mqtt_on_connect stock_config "1.8" (hat sample))) 5
  = Some (Publish "homeassistant/sensor/pijuicemqtt-raspberrypi/batteryCharge/config"
            (qq "{'availability_topic': 'pijuicemqtt/raspberrypi/service', 'payload_available': 'online', 'payload_not_available': 'offline', 'state_topic': 'pijuicemqtt/raspberrypi/status', 'json_attributes_topic': 'pijuicemqtt/raspberrypi/status', 'device': {'identifiers': ['pijuicemqtt-raspberrypi'], 'name': 'raspberrypi PiJuice', 'sw_version': 'Library 1.8, Firmware 1.6', 'model': 'PiJuice 1820 mAh', 'manufacturer': 'PiSupply'}, 'name': 'raspberrypi PiJuice Battery', 'unique_id': 'pijuicemqtt-raspberrypi-batteryCharge', 'value_template': '{{ value_json.batteryCharge }}', 'device_class': 'battery', 'unit_of_measurement': '%'}")
            1 true).
Proof. vm_compute. reflexivity. Qed.

(** C8: under a configuration whose [homeassistant.sensor] is [False],
    every run of [mqtt_on_connect] consists of the last will and the
    retained "online" publish and nothing else, no run of the process ever
    publishes an autodiscovery document, and a cycle in which the hat
    answers every call still publishes its status message. *)
Theorem sensor_switched_off
        (config : dict) (lib : string) (period hostname : value) (ha : dict) :
  dict_get config "publish_period" = Some period ->
  dict_get config "hostname" = Some hostname ->
  dict_get config "homeassistant" = Some (VDict ha) ->
  dict_get ha "sensor" = Some (VBool false) ->
  (forall pijuice,
      mqtt_on_connect config lib pijuice
      = ([WillSet (service_topic hostname) "offline" 1 true;
          Publish (service_topic hostname) "online" 1 true], inr tt))
  /\ (forall pijuice inputs,
         filter is_autoconfig_publish (log (run config lib (boot config pijuice) inputs))
         = [])
  /\ (forall r,
         filter is_status_publish (trace (publish_pijuice config (hat r)))
         = [Publish (status_topic hostname) (dumps (VDict (document_of r))) 0 false]).
Proof.
  intros Hp Hh Hha Hs.
  assert (Q : forall pijuice,
             mqtt_on_connect config lib pijuice
             = ([WillSet (service_topic hostname) "offline" 1 true;
                 Publish (service_topic hostname) "online" 1 true], inr tt)).
  { intros pijuice. now apply mqtt_on_connect_quiet with (sensor := VBool false) (ha := ha). }
  split; [exact Q|]. split; [|intros r; now apply status_publish_hat with (period := period)].
  intros pijuice inputs. apply filter_quiet.
  assert (S : forall p i, Forall (fun e => is_autoconfig_publish e = false) (log p) ->
                          Forall (fun e => is_autoconfig_publish e = false)
                                 (log (step config lib p i))).
  { intros p i Hl. destruct i as [pj|pj|]; simpl.
    - destruct (armed p); try exact Hl. simpl.
      apply Forall_app. split; [exact Hl | apply never_autoconfig_publish_pijuice].
    - destruct (main_status p); try exact Hl. simpl. rewrite Q. simpl.
      apply Forall_app. split; [exact Hl|]. repeat constructor.
      apply service_topic_not_config.
    - destruct (main_status p); try exact Hl. simpl.
      apply Forall_app. split; [exact Hl | apply never_autoconfig_on_exit]. }
  assert (R : forall l p, Forall (fun e => is_autoconfig_publish e = false) (log p) ->
                          Forall (fun e => is_autoconfig_publish e = false)
                                 (log (run config lib p l))).
  { induction l as [|i l IH]; intros p Hl; [exact Hl|]. simpl. apply IH, S, Hl. }
  apply R. unfold boot, on_main. simpl. apply never_autoconfig_main.
Qed.

Lemma sensor_switched_off_witness :
  dict_get sensor_off "publish_period" = Some (VInt 30)
  /\ dict_get sensor_off "hostname" = Some (VStr "raspberrypi")
  /\ dict_get sensor_off "homeassistant"
     = Some (VDict [("topic", VStr "homeassistant"); ("sensor", VBool false)])
  /\ dict_get [("topic", VStr "homeassistant"); ("sensor", VBool false)] "sensor"
     = Some (VBool false)
  /\ mqtt_on_connect sensor_off "1.8" (hat sample)
     = ([WillSet (service_topic (VStr "raspberrypi")) "offline" 1 true;
         Publish (service_topic (VStr "raspberrypi")) "online" 1 true], inr tt)
  /\ filter is_status_publish (trace (publish_pijuice sensor_off (hat sample)))
     = [Publish (status_topic (VStr "raspberrypi"))
          (dumps (VDict (document_of sample))) 0 false].
Proof.
  do 4 (split; [reflexivity|]).
  destruct (sensor_switched_off sensor_off "1.8" (VInt 30) (VStr "raspberrypi")
              [("topic", VStr "homeassistant"); ("sensor", VBool false)]
              eq_refl eq_refl eq_refl eq_refl) as (Q & _ & S).
  split; [apply Q | apply S].
Defined.

(** ** Loading the configuration *)

(** C6 fails on the script: a file that sets [mqtt.broker] and nothing
    else is loaded with an [mqtt] section that holds the broker only.  The
    port, the user name and the password have no value at all, and the main
    program stops with a [KeyError] at its first lookup in that section,
    before it connects.  The defaults of the top level are there. *)
Theorem partial_section_loses_defaults :
  exists config,
    load_config "raspberrypi" broker_only = inr config
    /\ dict_get config "mqtt" = Some (VDict [("broker", VStr "192.168.1.10")])
    /\ getitem (VDict [("broker", VStr "192.168.1.10")]) "port" = inl KeyError
    /\ dict_get config "publish_period" = Some (VInt 30)
    /\ dict_get config "hostname" = Some (VStr "raspberrypi")
    /\ main config (hat sample) = ([], inl KeyError).
Proof. eexists. repeat split. Qed.

(** * Further properties of the script *)

(** ** [load_config] *)

(** X1: an option the file does not name at its top level, a whole
    section included, has after loading the value the defaults give it
    (none, when the defaults do not know it either). *)
Theorem omitted_option_keeps_default (node : string) (override : dict) (k : string) :
  dict_get override k = None ->
  exists config,
    load_config node (VDict override) = inr config
    /\ dict_get config k = dict_get (default_config node) k.
Proof.
  intros H. exists (dict_merge (default_config node) override).
  split; [reflexivity | now apply dict_get_merge_absent].
Qed.

Lemma omitted_option_keeps_default_witness :
  dict_get [("publish_period", VInt 10)] "mqtt" = None
  /\ exists config,
       load_config "raspberrypi" (VDict [("publish_period", VInt 10)]) = inr config
       /\ dict_get config "mqtt" = dict_get (default_config "raspberrypi") "mqtt".
Proof.
  split; [reflexivity|].
  apply (omitted_option_keeps_default "raspberrypi" [("publish_period", VInt 10)] "mqtt").
  reflexivity.
Defined.

(** X2: an option the file names at its top level has after loading the
    value of the file, whole: a section of the file is not merged with the
    default section, and an option the defaults do not know, such as
    [publish_online_status], is passed on. *)
Theorem given_option_replaces_default
        (node : string) (override : dict) (k : string) (v : value) :
  NoDup (map fst override) ->
  dict_get override k = Some v ->
  exists config,
    load_config node (VDict override) = inr config /\ dict_get config k = Some v.
Proof.
  intros N H. exists (dict_merge (default_config node) override).
  split; [reflexivity | now apply dict_get_merge_present].
Qed.

Lemma given_option_replaces_default_witness :
  NoDup (map fst [("publish_online_status", VBool true);
                  ("homeassistant", VDict [("sensor", VBool false)])])
  /\ dict_get [("publish_online_status", VBool true);
               ("homeassistant", VDict [("sensor", VBool false)])] "homeassistant"
     = Some (VDict [("sensor", VBool false)])
  /\ exists config,
       load_config "raspberrypi"
         (VDict [("publish_online_status", VBool true);
                 ("homeassistant", VDict [("sensor", VBool false)])]) = inr config
       /\ dict_get config "homeassistant" = Some (VDict [("sensor", VBool false)]).
Proof.
  assert (N : NoDup (map fst [("publish_online_status", VBool true);
                              ("homeassistant", VDict [("sensor", VBool false)])])).
  { simpl. repeat constructor; simpl; intuition discriminate. }
  split; [exact N|]. split; [reflexivity|].
  exact (given_option_replaces_default "raspberrypi" _ "homeassistant" _ N eq_refl).
Defined.

(** X3: whatever mapping the file holds, the loaded configuration has the
    four top-level keys of the defaults, in the first four places and in
    the order of the defaults; keys the defaults do not know follow. *)
Theorem loaded_config_starts_with_default_keys (node : string) (override : dict) :
  exists config,
    load_config node (VDict override) = inr config
    /\ firstn 4 (map fst config) = ["mqtt"; "homeassistant"; "publish_period"; "hostname"].
Proof.
  exists (dict_merge (default_config node) override). split; [reflexivity|].
  unfold dict_merge.
  assert (G : forall b a, firstn 4 (map fst a)
                          = ["mqtt"; "homeassistant"; "publish_period"; "hostname"] ->
                          firstn 4 (map fst (fold_left
                            (fun acc kv => dict_set acc (fst kv) (snd kv)) b a))
                          = ["mqtt"; "homeassistant"; "publish_period"; "hostname"]).
  { induction b as [|[k v] b IH]; intros a H; [exact H|]. simpl. apply IH.
    assert (S : forall d, (4 <= length d)%nat ->
                  firstn 4 (map fst (dict_set d k v)) = firstn 4 (map fst d)).
    { clear. intros d.
      destruct d as [|[k0 v0] [|[k1 v1] [|[k2 v2] [|[k3 v3] d]]]]; simpl;
        try lia. intros _.
      destruct (String.eqb k k0); [reflexivity|].
      destruct (String.eqb k k1); [reflexivity|].
      destruct (String.eqb k k2); [reflexivity|].
      destruct (String.eqb k k3); reflexivity. }
    rewrite S; [exact H|].
    apply (f_equal (@length string)) in H. rewrite length_firstn, length_map in H.
    cbn [length] in H. lia. }
  apply G. reflexivity.
Qed.

(** ** The main program *)

(** X4: when the file has no [mqtt] section, the main program sets no
    credentials, connects to 127.0.0.1:1883 with a keepalive of 60,
    installs the handlers of SIGINT and SIGTERM and then runs the first
    cycle at once; it ends as that cycle ends. *)
Theorem main_connects_with_defaults
        (node : string) (override : dict) (pijuice : pijuice_io) :
  dict_get override "mqtt" = None ->
  main (dict_merge (default_config node) override) pijuice
  = ((default_setup
      ++ trace (publish_pijuice (dict_merge (default_config node) override) pijuice))%list,
     outcome (publish_pijuice (dict_merge (default_config node) override) pijuice)).
Proof.
  intros H. set (config := dict_merge (default_config node) override).
  assert (M : dict_get config "mqtt"
              = Some (VDict [ ("broker", VStr "127.0.0.1"); ("port", VInt 1883);
                              ("username", VNone); ("password", VNone) ])).
  { unfold config. now rewrite dict_get_merge_absent. }
  clearbody config. unfold main, config_item, item, print.
  cbn -[publish_pijuice]. rewrite M. cbn -[publish_pijuice].
  destruct (publish_pijuice config pijuice) as [t r]. reflexivity.
Qed.

Lemma main_connects_with_defaults_witness :
  dict_get [("publish_period", VInt 10)] "mqtt" = None
  /\ main (dict_merge (default_config "raspberrypi") [("publish_period", VInt 10)])
          (hat sample)
     = ((default_setup
         ++ trace (publish_pijuice
                     (dict_merge (default_config "raspberrypi")
                                 [("publish_period", VInt 10)]) (hat sample)))%list,
        outcome (publish_pijuice
                   (dict_merge (default_config "raspberrypi")
                               [("publish_period", VInt 10)]) (hat sample))).
Proof.
  split; [reflexivity|].
  apply (main_connects_with_defaults "raspberrypi" [("publish_period", VInt 10)]
           (hat sample)).
  reflexivity.
Defined.

(** X5: when the [mqtt] section of the configuration lacks one of
    [username], [password], [broker] and [port], the main program raises
    [KeyError]; it has not connected, started no timer, called the hat or
    published anything. *)
Theorem main_needs_whole_mqtt_section
        (config : dict) (pijuice : pijuice_io) (mqtt : dict) :
  dict_get config "mqtt" = Some (VDict mqtt) ->
  dict_mem mqtt "username" && dict_mem mqtt "password"
    && dict_mem mqtt "broker" && dict_mem mqtt "port" = false ->
  outcome (main config pijuice) = inl KeyError
  /\ Forall (fun e => is_connect e = false /\ is_timer_event e = false
                      /\ is_publish e = false /\ calls_of [e] = [])
            (trace (main config pijuice)).
Proof.
  intros M H. unfold main, config_item, item, print, dict_mem in *.
  cbn -[publish_pijuice]. rewrite M. cbn -[publish_pijuice].
  destruct (dict_get mqtt "username") as [u|]; cbn -[publish_pijuice];
    [|split; [reflexivity|constructor]].
  destruct (dict_get mqtt "password") as [pw|]; cbn -[publish_pijuice];
    [|split; [reflexivity|constructor]].
  destruct (dict_get mqtt "broker") as [b|]; cbn -[publish_pijuice];
    [|split; [reflexivity|repeat constructor]].
  destruct (dict_get mqtt "port") as [port|]; cbn -[publish_pijuice];
    [discriminate | split; [reflexivity|repeat constructor]].
Qed.

Lemma main_needs_whole_mqtt_section_witness :
  dict_get [("mqtt", VDict [("broker", VStr "10.0.0.2"); ("username", VStr "pi");
                            ("password", VStr "secret")])] "mqtt"
  = Some (VDict [("broker", VStr "10.0.0.2"); ("username", VStr "pi");
                 ("password", VStr "secret")])
  /\ outcome (main [("mqtt", VDict [("broker", VStr "10.0.0.2"); ("username", VStr "pi");
                                    ("password", VStr "secret")])] (hat sample))
     = inl KeyError.
Proof.
  split; [reflexivity|].
  apply (main_needs_whole_mqtt_section
           [("mqtt", VDict [("broker", VStr "10.0.0.2"); ("username", VStr "pi");
                            ("password", VStr "secret")])]
           (hat sample)
           [("broker", VStr "10.0.0.2"); ("username", VStr "pi");
            ("password", VStr "secret")]); reflexivity.
Defined.

(** ** [on_exit] *)

(** X6: under every loaded configuration the handler first prints and
    publishes the retained "offline" on the availability topic, whatever
    the state of the timer, and it never returns: with a timer it cancels
    and joins it and raises [SystemExit(0)], without one (the signal came
    before the first cycle) it raises [AttributeError] right after the
    publish. *)
Theorem on_exit_always_says_offline
        (node : string) (override : dict) (t : option timer) :
  exists hostname,
    dict_get (dict_merge (default_config node) override) "hostname" = Some hostname
    /\ on_exit (dict_merge (default_config node) override) t
       = ((Print "Exiting..." :: Publish (service_topic hostname) "offline" 1 true
           :: match t with Some _ => [TimerCancel; TimerJoin] | None => [] end)%list,
          inl (match t with Some _ => SystemExit 0 | None => AttributeError end)).
Proof.
  destruct (loaded_hostname node override) as [hostname Hh].
  exists hostname. split; [exact Hh|]. revert Hh.
  generalize (dict_merge (default_config node) override). intros config Hh.
  unfold on_exit, print, publish, config_item, item.
  cbn -[service_topic]. rewrite Hh. destruct t; reflexivity.
Qed.

(** ** [publish_pijuice] *)

Lemma filter_heartbeat (f : event -> bool) (config : dict) (h : value) :
  f (Publish (service_topic h) "online" 1 true) = false ->
  filter f (heartbeat_events config h) = [].
Proof.
  intros H. unfold heartbeat_events. destruct (heartbeat_enabled config); [|reflexivity].
  simpl. now rewrite H.
Qed.

(** X7: under every loaded configuration a cycle ends in one of three
    ways.  It returns having published one status message and printed
    nothing; or it returns having printed the skip message once and
    published no status message; or it raises [TypeError], having printed
    nothing and published no status message.  No other exception leaves
    [publish_pijuice], [KeyError] in particular never does. *)
Theorem cycle_ends_in_one_of_three_ways
        (node : string) (override : dict) (pijuice : pijuice_io) :
  let m := publish_pijuice (dict_merge (default_config node) override) pijuice in
  (outcome m = inr tt
   /\ length (filter is_status_publish (trace m)) = 1%nat
   /\ filter is_print (trace m) = [])
  \/ (outcome m = inr tt
      /\ filter is_status_publish (trace m) = []
      /\ filter is_print (trace m) = [Print skip_message])
  \/ (outcome m = inl TypeError
      /\ filter is_status_publish (trace m) = []
      /\ filter is_print (trace m) = []).
Proof.
  set (config := dict_merge (default_config node) override).
  destruct (loaded_period node override) as [period Hp].
  destruct (loaded_hostname node override) as [hostname Hh].
  fold config in Hp, Hh. clearbody config. cbv zeta.
  rewrite (publish_pijuice_run _ _ _ _ Hp Hh). cbn [trace outcome fst snd filter].
  change (is_status_publish (TimerStart period)) with false.
  change (is_print (TimerStart period)) with false. cbv iota.
  rewrite !filter_app, filter_heartbeat_status, (filter_heartbeat is_print) by reflexivity.
  cbn [app].
  pose proof (publish_status_outcome config pijuice hostname Hh) as O.
  destruct (publish_status config pijuice) as [t [e|[]]]; cbn [outcome trace fst snd] in O.
  - destruct O as (n & -> & [-> | ->]).
    + right; left. unfold try_except_KeyError, print, emit, trace, outcome. cbn [fst snd].
      rewrite !filter_app, !filter_calls by reflexivity. repeat split.
    + right; right. unfold try_except_KeyError, trace, outcome. cbn [fst snd].
      rewrite !filter_calls by reflexivity. repeat split.
  - destruct O as (charge & mv & ma & temp & b & pin & p5 & iomv & ioma & ->). left.
    unfold try_except_KeyError, trace, outcome. cbn [fst snd].
    rewrite !filter_app, !filter_calls by reflexivity.
    cbn [app filter is_status_publish publish_to is_print].
    rewrite status_topic_ends. repeat split.
Qed.

Lemma calls_of_app (a b : list event) : calls_of (a ++ b) = (calls_of a ++ calls_of b)%list.
Proof. apply flat_map_app. Qed.

Lemma calls_of_calls (gs : list getter) : calls_of (map Call gs) = gs.
Proof. induction gs as [|g gs IH]; simpl; [reflexivity | now rewrite IH]. Qed.

Lemma calls_of_heartbeat (config : dict) (h : value) :
  calls_of (heartbeat_events config h) = [].
Proof. unfold heartbeat_events. destruct (heartbeat_enabled config); reflexivity. Qed.

Lemma publish_status_first (config : dict) (pijuice : pijuice_io) :
  exists rest, trace (publish_status config pijuice) = Call GetStatus :: rest.
Proof.
  unfold publish_status. rewrite trace_bind. cbn [call bind emit ret trace fst app].
  eexists. reflexivity.
Qed.

(** X8: under every loaded configuration a cycle calls the hat in one
    fixed order, starting with [GetStatus], and stops calling at the first
    reading that fails: the calls it makes are the first [n] of the seven
    of [cycle_calls], for some [n] from 1 to 7.  It never asks for the
    battery profile or the firmware version. *)
Theorem cycle_calls_in_order
        (node : string) (override : dict) (pijuice : pijuice_io) :
  exists n,
    (1 <= n <= 7)%nat
    /\ calls_of (trace (publish_pijuice (dict_merge (default_config node) override)
                                        pijuice))
       = firstn n cycle_calls.
Proof.
  set (config := dict_merge (default_config node) override).
  destruct (loaded_period node override) as [period Hp].
  destruct (loaded_hostname node override) as [hostname Hh].
  fold config in Hp, Hh. clearbody config.
  rewrite (publish_pijuice_run _ _ _ _ Hp Hh). cbn [trace fst].
  change (calls_of (TimerStart period :: ?l)) with (calls_of l).
  rewrite calls_of_app, calls_of_heartbeat. cbn [app].
  pose proof (publish_status_outcome config pijuice hostname Hh) as O.
  destruct (publish_status_first config pijuice) as [rest F].
  destruct (publish_status config pijuice) as [t [e|[]]];
    cbn [outcome trace fst snd] in O, F.
  - destruct O as (n & -> & _).
    assert (N : (1 <= n)%nat) by (destruct n; [discriminate | lia]).
    exists (Nat.min n 7). split; [lia|].
    replace (firstn (Nat.min n 7) cycle_calls) with (firstn n cycle_calls)
      by (destruct (Nat.le_gt_cases n 7) as [L|L];
          [now rewrite Nat.min_l by exact L
          | rewrite Nat.min_r by lia;
            rewrite !firstn_all2 by (simpl; lia); reflexivity]).
    destruct e; unfold try_except_KeyError, print, emit, trace; cbn [fst];
      rewrite ?calls_of_app, calls_of_calls; cbn [calls_of flat_map app];
      rewrite ?app_nil_r; reflexivity.
  - destruct O as (charge & mv & ma & temp & b & pin & p5 & iomv & ioma & ->).
    exists 7%nat. split; [lia|].
    unfold try_except_KeyError, trace; cbn [fst].
    rewrite calls_of_app, calls_of_calls. reflexivity.
Qed.

Lemma never_retained_body (config : dict) (pijuice : pijuice_io) :
  never is_retained_publish
        (try_except_KeyError (publish_status config pijuice) (print skip_message)).
Proof. unfold publish_status, config_item, item, print, publish. never_walk. Qed.

(** X9: the heartbeat is off unless the file asks for it.  When the file
    does not name [publish_online_status], no cycle publishes a retained
    message: nothing goes to the availability topic between the connection
    and the shutdown. *)
Theorem heartbeat_is_opt_in
        (node : string) (override : dict) (pijuice : pijuice_io) :
  dict_get override "publish_online_status" = None ->
  heartbeat_enabled (dict_merge (default_config node) override) = false
  /\ filter is_retained_publish
       (trace (publish_pijuice (dict_merge (default_config node) override) pijuice))
     = [].
Proof.
  intros H. set (config := dict_merge (default_config node) override).
  assert (E : heartbeat_enabled config = false).
  { unfold heartbeat_enabled, config. now rewrite dict_get_merge_absent. }
  split; [exact E|].
  destruct (loaded_period node override) as [period Hp].
  destruct (loaded_hostname node override) as [hostname Hh].
  fold config in Hp, Hh. clearbody config.
  rewrite (publish_pijuice_run _ _ _ _ Hp Hh). unfold heartbeat_events. rewrite E.
  cbn [trace fst app filter is_retained_publish].
  apply filter_quiet, never_retained_body.
Qed.

Lemma heartbeat_is_opt_in_witness :
  dict_get [("publish_period", VInt 10)] "publish_online_status" = None
  /\ filter is_retained_publish
       (trace (publish_pijuice
                 (dict_merge (default_config "raspberrypi") [("publish_period", VInt 10)])
                 (hat sample)))
     = [].
Proof.
  split; [reflexivity|].
  apply (heartbeat_is_opt_in "raspberrypi" [("publish_period", VInt 10)] (hat sample)).
  reflexivity.
Defined.

(** ** The chain of cycles *)



(** ** [mqtt_on_connect] *)

(** The body of the announcement either publishes the four documents and
    returns, or raises having published nothing. *)
Lemma autoconfig_cases (config : dict) (lib : string) (pijuice : pijuice_io)
      (hostname : value) (ha : dict) :
  dict_get config "hostname" = Some hostname ->
  dict_get config "homeassistant" = Some (VDict ha) ->
  (exists e, outcome (autoconfig config lib pijuice) = inl e
             /\ Forall (fun e => is_publish e = false)
                       (trace (autoconfig config lib pijuice)))
  \/ (exists topic capacity version base,
         dict_get ha "topic" = Some topic
         /\ battery_capacity pijuice = inr capacity
         /\ firmware_version pijuice = inr version
         /\ with_expire_after ha (base_payload lib hostname capacity version) = inr base
         /\ autoconfig config lib pijuice
            = ((Print "Publishing Home Assistant MQTT autoconfig"
                :: Call GetBatteryProfile :: Call GetFirmwareVersion
                :: autoconfig_events topic hostname base)%list, inr tt)).
Proof.
  intros Hh Hha.
  destruct (battery_capacity pijuice) as [e|capacity] eqn:Hc.
  { left. revert Hc. unfold battery_capacity, metadata, autoconfig, call, item, print.
    cbn -[getitem publish_autoconfig config_item contains py_int base_payload].
    destruct (getitem (pijuice GetBatteryProfile) "data") as [e1|d1];
      cbn -[getitem publish_autoconfig config_item contains py_int base_payload].
    - intros _. eexists. split; [reflexivity | repeat constructor].
    - intros ->. eexists. split; [reflexivity | repeat constructor]. }
  destruct (firmware_version pijuice) as [e|version] eqn:Hf.
  { left. revert Hc Hf.
    unfold battery_capacity, firmware_version, metadata, autoconfig, call, item, print.
    cbn -[getitem publish_autoconfig config_item contains py_int base_payload].
    destruct (getitem (pijuice GetBatteryProfile) "data") as [e1|d1];
      cbn -[getitem publish_autoconfig config_item contains py_int base_payload];
      [discriminate|].
    intros ->.
    cbn -[getitem publish_autoconfig config_item contains py_int base_payload].
    destruct (getitem (pijuice GetFirmwareVersion) "data") as [e2|f2];
      cbn -[getitem publish_autoconfig config_item contains py_int base_payload].
    - intros _. eexists. split; [reflexivity | repeat constructor].
    - intros ->. eexists. split; [reflexivity | repeat constructor]. }
  destruct (with_expire_after ha (base_payload lib hostname capacity version))
    as [e|base] eqn:Hb.
  { left. revert Hc Hf Hb.
    unfold battery_capacity, firmware_version, metadata, with_expire_after,
      autoconfig, call, item, print, config_item.
    cbn -[getitem publish_autoconfig contains py_int base_payload].
    destruct (getitem (pijuice GetBatteryProfile) "data") as [e1|d1];
      cbn -[getitem publish_autoconfig contains py_int base_payload]; [discriminate|].
    intros ->. cbn -[getitem publish_autoconfig contains py_int base_payload].
    destruct (getitem (pijuice GetFirmwareVersion) "data") as [e2|f2];
      cbn -[getitem publish_autoconfig contains py_int base_payload]; [discriminate|].
    intros ->. cbn -[publish_autoconfig contains py_int base_payload].
    rewrite Hh, Hha. cbn -[publish_autoconfig py_int base_payload].
    unfold dict_mem. destruct (dict_get ha "expire_after") as [x|]; [|discriminate].
    cbn -[publish_autoconfig py_int base_payload].
    destruct (py_int x) as [e3|n]; [|discriminate]. intros _.
    eexists. split; [reflexivity | repeat constructor]. }
  destruct (dict_get ha "topic") as [topic|] eqn:Ht.
  - right. exists topic, capacity, version, base. repeat split; try assumption.
    now apply autoconfig_run with (capacity := capacity) (version := version) (ha := ha).
  - left. revert Hc Hf Hb.
    unfold battery_capacity, firmware_version, metadata, with_expire_after,
      autoconfig, publish_autoconfig, call, item, print, config_item.
    cbn -[getitem contains py_int base_payload].
    destruct (getitem (pijuice GetBatteryProfile) "data") as [e1|d1];
      cbn -[getitem contains py_int base_payload]; [discriminate|].
    intros ->. cbn -[getitem contains py_int base_payload].
    destruct (getitem (pijuice GetFirmwareVersion) "data") as [e2|f2];
      cbn -[getitem contains py_int base_payload]; [discriminate|].
    intros ->. cbn -[contains py_int base_payload].
    rewrite Hh, Hha. cbn -[py_int base_payload dict_set].
    unfold dict_mem. destruct (dict_get ha "expire_after") as [x|].
    + cbn -[py_int base_payload dict_set].
      destruct (py_int x) as [e3|n]; [discriminate|]. intros _.
      cbn -[py_int base_payload dict_set]. rewrite Ht.
      eexists. split; [reflexivity | repeat constructor].
    + intros _. cbn -[py_int base_payload dict_set]. rewrite Ht.
      eexists. split; [reflexivity | repeat constructor].
Qed.

Lemma filter_no_publish (f : event -> bool) (l : list event) :
  (forall e, is_publish e = false -> f e = false) ->
  Forall (fun e => is_publish e = false) l -> filter f l = [].
Proof.
  intros H F. apply filter_quiet. revert F. apply Forall_impl. exact H.
Qed.

Lemma autoconfig_needs_publish (e : event) :
  is_publish e = false -> is_autoconfig_publish e = false.
Proof. destruct e; simpl; congruence. Qed.

(** A connection under a configuration with a host name and a
    [homeassistant] entry: no document, or all four. *)
Lemma mqtt_on_connect_announces (config : dict) (lib : string) (pijuice : pijuice_io)
      (hostname hav : value) :
  dict_get config "hostname" = Some hostname ->
  dict_get config "homeassistant" = Some hav ->
  let m := mqtt_on_connect config lib pijuice in
  filter is_autoconfig_publish (trace m) = []
  \/ exists ha topic capacity version base,
       hav = VDict ha
       /\ battery_capacity pijuice = inr capacity
       /\ firmware_version pijuice = inr version
       /\ with_expire_after ha (base_payload lib hostname capacity version) = inr base
       /\ outcome m = inr tt
       /\ filter is_autoconfig_publish (trace m) = autoconfig_events topic hostname base.
Proof.
  intros Hh Hha. cbv zeta.
  unfold mqtt_on_connect, config_item, item, will_set, publish.
  cbn -[autoconfig service_topic]. rewrite Hh, Hha. cbn -[autoconfig service_topic].
  destruct (getitem hav "sensor") as [e|sensor] eqn:Hs; cbn -[autoconfig service_topic].
  { left. cbn [trace fst filter is_autoconfig_publish publish_to].
    now rewrite service_topic_not_config. }
  destruct (truthy sensor); cbn -[autoconfig service_topic].
  2:{ left. cbn [trace fst filter is_autoconfig_publish publish_to].
      now rewrite service_topic_not_config. }
  destruct hav as [| | | | | |ha]; try discriminate.
  destruct (autoconfig_cases config lib pijuice hostname ha Hh Hha)
    as [(e & He & Hq) | (topic & capacity & version & base & Ht & Hc & Hf & Hb & E)].
  - left. destruct (autoconfig config lib pijuice) as [t r].
    cbn [trace outcome fst snd filter is_autoconfig_publish publish_to] in *.
    rewrite service_topic_not_config.
    apply filter_no_publish; [exact autoconfig_needs_publish | exact Hq].
  - right. exists ha, topic, capacity, version, base.
    rewrite E. cbn [trace outcome fst snd filter is_autoconfig_publish publish_to
                      autoconfig_events].
    rewrite service_topic_not_config, !discovery_topic_ends. repeat split; assumption.
Qed.

(** X11: the announcement is all or nothing.  Under every loaded
    configuration and whatever the hat answers, a run of [mqtt_on_connect]
    publishes no autodiscovery document at all, or it returns and has
    published the four of them, built on one base document from the
    battery capacity and the firmware version the hat gave. *)
Theorem announcement_is_all_or_nothing
        (node : string) (override : dict) (lib : string) (pijuice : pijuice_io) :
  let m := mqtt_on_connect (dict_merge (default_config node) override) lib pijuice in
  filter is_autoconfig_publish (trace m) = []
  \/ exists hostname ha topic capacity version base,
       dict_get (dict_merge (default_config node) override) "hostname" = Some hostname
       /\ dict_get (dict_merge (default_config node) override) "homeassistant"
          = Some (VDict ha)
       /\ battery_capacity pijuice = inr capacity
       /\ firmware_version pijuice = inr version
       /\ with_expire_after ha (base_payload lib hostname capacity version) = inr base
       /\ outcome m = inr tt
       /\ filter is_autoconfig_publish (trace m) = autoconfig_events topic hostname base.
Proof.
  destruct (loaded_hostname node override) as [hostname Hh].
  destruct (loaded_has node override "homeassistant") as [hav Hha]; [simpl; auto|].
  destruct (mqtt_on_connect_announces _ lib pijuice hostname hav Hh Hha)
    as [Q | (ha & topic & capacity & version & base & -> & Hc & Hf & Hb & Ho & E)].
  - left. exact Q.
  - right. exists hostname, ha, topic, capacity, version, base. repeat split; assumption.
Qed.

(** X12: in each of the four documents the shared fields come first, in
    the order of [base_payload], then [expire_after] when the
    configuration has it, then the fields of the sensor: no field of a
    sensor has the name of a shared field, so the merge overwrites
    nothing. *)
Theorem document_fields_in_order
        (lib : string) (hostname capacity version : value) (n : Z) (payload : dict) :
  In payload (sensor_payloads hostname) ->
  dict_merge (base_payload lib hostname capacity version) payload
  = (base_payload lib hostname capacity version ++ payload)%list
  /\ dict_merge (dict_set (base_payload lib hostname capacity version)
                          "expire_after" (VInt n)) payload
     = (base_payload lib hostname capacity version
        ++ ("expire_after", VInt n) :: payload)%list.
Proof.
  intros H. simpl in H.
  destruct H as [<-|[<-|[<-|[<-|[]]]]]; split; reflexivity.
Qed.

Lemma document_fields_in_order_witness :
  In (payload_batteryTemperature (VStr "raspberrypi"))
     (sensor_payloads (VStr "raspberrypi"))
  /\ dict_merge (base_payload "1.8" (VStr "raspberrypi") (VInt 1820) (VStr "1.6"))
                (payload_batteryTemperature (VStr "raspberrypi"))
     = (base_payload "1.8" (VStr "raspberrypi") (VInt 1820) (VStr "1.6")
        ++ payload_batteryTemperature (VStr "raspberrypi"))%list.
Proof.
  split; [simpl; auto|].
  apply (document_fields_in_order "1.8" (VStr "raspberrypi") (VInt 1820) (VStr "1.6") 0
           (payload_batteryTemperature (VStr "raspberrypi"))).
  simpl. auto.
Defined.

(** X13: an [expire_after] that [int] does not accept stops the
    announcement.  With the sensors switched on and the metadata of the
    hat at hand, [mqtt_on_connect] registers the will, publishes "online",
    prints, makes its two calls and raises the exception of [int]; no
    document is published. *)
Theorem bad_expire_after_stops_announcement
        (config : dict) (lib : string) (pijuice : pijuice_io)
        (hostname sensor capacity version x : value) (ha : dict) (e : exn) :
  dict_get config "hostname" = Some hostname ->
  dict_get config "homeassistant" = Some (VDict ha) ->
  dict_get ha "sensor" = Some sensor ->
  truthy sensor = true ->
  battery_capacity pijuice = inr capacity ->
  firmware_version pijuice = inr version ->
  dict_get ha "expire_after" = Some x ->
  py_int x = inl e ->
  mqtt_on_connect config lib pijuice
  = ([WillSet (service_topic hostname) "offline" 1 true;
      Publish (service_topic hostname) "online" 1 true;
      Print "Publishing Home Assistant MQTT autoconfig";
      Call GetBatteryProfile; Call GetFirmwareVersion], inl e).
Proof.
  intros Hh Hha Hs Hon Hc Hf Hx He.
  assert (A : autoconfig config lib pijuice
              = ([Print "Publishing Home Assistant MQTT autoconfig";
                  Call GetBatteryProfile; Call GetFirmwareVersion], inl e)).
  { revert Hc Hf.
    unfold battery_capacity, firmware_version, metadata, autoconfig, call, item, print,
      config_item.
    cbn -[getitem publish_autoconfig contains py_int base_payload].
    destruct (getitem (pijuice GetBatteryProfile) "data") as [e1|d1];
      cbn -[getitem publish_autoconfig contains py_int base_payload]; [discriminate|].
    intros ->. cbn -[getitem publish_autoconfig contains py_int base_payload].
    destruct (getitem (pijuice GetFirmwareVersion) "data") as [e2|f2];
      cbn -[getitem publish_autoconfig contains py_int base_payload]; [discriminate|].
    intros ->. cbn -[publish_autoconfig contains py_int base_payload].
    rewrite Hh, Hha. cbn -[publish_autoconfig py_int base_payload].
    unfold dict_mem. rewrite Hx. cbn -[publish_autoconfig py_int base_payload].
    rewrite He. reflexivity. }
  unfold mqtt_on_connect, config_item, item, will_set, publish.
  cbn -[autoconfig service_topic]. rewrite Hh, Hha.
  cbn -[autoconfig service_topic]. rewrite Hs.
  cbn -[autoconfig service_topic]. rewrite Hon, A. reflexivity.
Qed.

Lemma bad_expire_after_stops_announcement_witness :
  dict_get expires_soon "hostname" = Some (VStr "raspberrypi")
  /\ py_int (VStr "soon") = inl ValueError
  /\ mqtt_on_connect expires_soon "1.8" (hat sample)
     = ([WillSet (service_topic (VStr "raspberrypi")) "offline" 1 true;
         Publish (service_topic (VStr "raspberrypi")) "online" 1 true;
         Print "Publishing Home Assistant MQTT autoconfig";
         Call GetBatteryProfile; Call GetFirmwareVersion], inl ValueError).
Proof.
  split; [reflexivity|]. split; [reflexivity|].
  apply (bad_expire_after_stops_announcement expires_soon "1.8" (hat sample)
           (VStr "raspberrypi") (VBool true) (VInt 1820) (VStr "1.6") (VStr "soon")
           [("topic", VStr "homeassistant"); ("sensor", VBool true);
            ("expire_after", VStr "soon")] ValueError); reflexivity.
Defined.

Lemma discovery_topic_not_status (t h : value) (p s : string) :
  ends_with "/status" (discovery_topic t h p s) = false.
Proof. unfold discovery_topic. other_suffix. Qed.

(** X14: the documents point to the topics the script uses.  Under every
    loaded configuration every autodiscovery document that
    [mqtt_on_connect] publishes names as its availability topic the topic
    on which [on_exit] publishes "offline", with "online" and "offline" as
    the two payloads, and as its state and attributes topic the topic on
    which [publish_pijuice] publishes the readings. *)
Theorem documents_point_to_live_topics
        (node : string) (override : dict) (lib : string) (pijuice : pijuice_io)
        (r : readings) (t : option timer) :
  exists hostname,
    filter is_offline_publish
      (trace (on_exit (dict_merge (default_config node) override) t))
    = [Publish (service_topic hostname) "offline" 1 true]
    /\ filter is_status_publish
         (trace (publish_pijuice (dict_merge (default_config node) override) (hat r)))
       = [Publish (status_topic hostname) (dumps (VDict (document_of r))) 0 false]
    /\ forall e,
         In e (filter is_autoconfig_publish
                 (trace (mqtt_on_connect (dict_merge (default_config node) override)
                                         lib pijuice))) ->
         exists topic d,
           e = Publish topic (dumps (VDict d)) 1 true
           /\ dict_get d "availability_topic" = Some (VStr (service_topic hostname))
           /\ dict_get d "payload_available" = Some (VStr "online")
           /\ dict_get d "payload_not_available" = Some (VStr "offline")
           /\ dict_get d "state_topic" = Some (VStr (status_topic hostname))
           /\ dict_get d "json_attributes_topic" = Some (VStr (status_topic hostname)).
Proof.
  destruct (loaded_period node override) as [period Hp].
  destruct (loaded_hostname node override) as [hostname Hh].
  destruct (loaded_has node override "homeassistant") as [hav Hha]; [simpl; auto|].
  generalize dependent (dict_merge (default_config node) override). intros config Hp Hh Hha.
  exists hostname. split; [|split].
  - unfold on_exit, print, publish, config_item, item.
    cbn -[service_topic]. rewrite Hh. destruct t; reflexivity.
  - now apply status_publish_hat with (period := period).
  - destruct (mqtt_on_connect_announces config lib pijuice hostname hav Hh Hha)
      as [-> | (ha & topic & capacity & version & base & -> & Hc & Hf & Hb & Ho & ->)].
    + intros e [].
    + unfold with_expire_after in Hb.
      assert (B : base = base_payload lib hostname capacity version
                  \/ exists n, base = dict_set (base_payload lib hostname capacity version)
                                               "expire_after" (VInt n)).
      { destruct (dict_get ha "expire_after") as [x|].
        - destruct (py_int x) as [|n]; [discriminate|]. injection Hb as <-. right. exists n. reflexivity.
        - injection Hb as <-. left. reflexivity. }
      intros e He. unfold autoconfig_events in He.
      destruct B as [-> | [n ->]];
        (destruct He as [<-|[<-|[<-|[<-|[]]]]];
         eexists; eexists; (split; [reflexivity|]); repeat split; reflexivity).
Qed.

(** ** What the callbacks never do, how they deliver *)

Ltac status_walk :=
  unfold never; repeat always_step; cbv beta;
  match goal with
  | |- is_status_publish (Publish (service_topic _) _ _ _) = false =>
      apply service_topic_not_status
  | |- is_status_publish (Publish (discovery_topic _ _ _ _) _ _ _) = false =>
      apply discovery_topic_not_status
  | |- _ => reflexivity
  end.

Lemma never_status_mqtt_on_connect config lib pijuice :
  never is_status_publish (mqtt_on_connect config lib pijuice).
Proof.
  unfold mqtt_on_connect, autoconfig, publish_autoconfig, will_set, config_item, item,
    print, publish.
  status_walk.
Qed.

Lemma never_status_on_exit config t : never is_status_publish (on_exit config t).
Proof. unfold on_exit, config_item, item, print, publish. status_walk. Qed.

Lemma never_telemetry_mqtt_on_connect config lib pijuice :
  never is_telemetry_call (mqtt_on_connect config lib pijuice).
Proof.
  unfold mqtt_on_connect, autoconfig, publish_autoconfig, will_set, config_item, item,
    print, publish.
  never_walk.
Qed.

(** X15: a connection leaves the cycle alone.  Whatever the configuration
    and the answers of the hat, [mqtt_on_connect] publishes nothing on the
    status topic, starts and cancels no timer, and asks the hat for none of
    the seven readings. *)
Theorem connection_leaves_cycle_alone
        (config : dict) (lib : string) (pijuice : pijuice_io) :
  filter is_status_publish (trace (mqtt_on_connect config lib pijuice)) = []
  /\ filter is_timer_event (trace (mqtt_on_connect config lib pijuice)) = []
  /\ filter is_telemetry_call (trace (mqtt_on_connect config lib pijuice)) = [].
Proof.
  repeat split; apply filter_quiet.
  - apply never_status_mqtt_on_connect.
  - apply never_timer_mqtt_on_connect.
  - apply never_telemetry_mqtt_on_connect.
Qed.

Ltac delivery_walk :=
  unfold always; repeat always_step; cbv beta;
  match goal with
  | |- delivery_ok (Publish (service_topic _) _ _ _) =>
      unfold delivery_ok; rewrite service_topic_not_status; split; reflexivity
  | |- delivery_ok (Publish (status_topic _) _ _ _) =>
      unfold delivery_ok; rewrite status_topic_ends; split; reflexivity
  | |- delivery_ok (Publish (discovery_topic _ _ _ _) _ _ _) =>
      unfold delivery_ok; rewrite discovery_topic_not_status; split; reflexivity
  | |- delivery_ok (WillSet _ _ _ _) => split; reflexivity
  | |- _ => exact I
  end.

Lemma delivery_publish_pijuice config pijuice :
  always delivery_ok (publish_pijuice config pijuice).
Proof.
  unfold publish_pijuice, heartbeat, publish_status, config_item, item, print, publish.
  delivery_walk.
Qed.

Lemma delivery_main config pijuice : always delivery_ok (main config pijuice).
Proof.
  unfold main, publish_pijuice, heartbeat, publish_status, config_item, item, print,
    publish.
  delivery_walk.
Qed.

Lemma delivery_mqtt_on_connect config lib pijuice :
  always delivery_ok (mqtt_on_connect config lib pijuice).
Proof.
  unfold mqtt_on_connect, autoconfig, publish_autoconfig, will_set, config_item, item,
    print, publish.
  delivery_walk.
Qed.

Lemma delivery_on_exit config t : always delivery_ok (on_exit config t).
Proof. unfold on_exit, config_item, item, print, publish. delivery_walk. Qed.

(** X16: whatever the configuration, the answers of the hat and the
    inputs of a run, every message the process hands to the broker on a
    status topic is at qos 0 and not retained, and every other message,
    the last will included, is at qos 1 and retained. *)
Theorem messages_are_retained_but_status
        (config : dict) (lib : string) (pijuice : pijuice_io) (inputs : list input) :
  Forall delivery_ok (log (run config lib (boot config pijuice) inputs)).
Proof.
  assert (S : forall p i, Forall delivery_ok (log p) ->
                          Forall delivery_ok (log (step config lib p i))).
  { intros p i Hl. destruct i as [pj|pj|]; simpl.
    - destruct (armed p); try exact Hl. simpl.
      apply Forall_app. split; [exact Hl | apply delivery_publish_pijuice].
    - destruct (main_status p); try exact Hl. simpl.
      apply Forall_app. split; [exact Hl | apply delivery_mqtt_on_connect].
    - destruct (main_status p); try exact Hl. simpl.
      apply Forall_app. split; [exact Hl | apply delivery_on_exit]. }
  assert (R : forall l p, Forall delivery_ok (log p) ->
                          Forall delivery_ok (log (run config lib p l))).
  { induction l as [|i l IH]; intros p Hl; [exact Hl|]. simpl. apply IH, S, Hl. }
  apply R. unfold boot, on_main. simpl. apply delivery_main.
Qed.

(** ** Cycles and status messages *)

Lemma status_count_cycle (config : dict) (pijuice : pijuice_io) (period h : value) :
  dict_get config "publish_period" = Some period ->
  dict_get config "hostname" = Some h ->
  (length (filter is_status_publish (trace (publish_pijuice config pijuice))) <= 1)%nat.
Proof.
  intros Hp Hh.
  destruct (status_publishes_of_cycle config pijuice period h Hp Hh)
    as [-> | (? & ? & ? & ? & ? & ? & ? & ? & ? & ->)]; simpl; lia.
Qed.

Lemma status_count_main (config : dict) (pijuice : pijuice_io) (period h : value) :
  dict_get config "publish_period" = Some period ->
  dict_get config "hostname" = Some h ->
  (length (filter is_status_publish (trace (main config pijuice))) <= 1)%nat.
Proof.
  intros Hp Hh. pose proof (status_count_cycle config pijuice period h Hp Hh) as C.
  unfold main, config_item, item, print.
  destruct (getitem (VDict config) "mqtt") as [e|mqtt]; [simpl; lia|].
  cbn [lift bind app].
  destruct (getitem mqtt "username") as [e|u]; [simpl; lia|].
  destruct (getitem mqtt "password") as [e|pw]; [simpl; lia|].
  destruct (getitem mqtt "broker") as [e|b]; [simpl; lia|].
  destruct (getitem mqtt "port") as [e|port]; [simpl; lia|].
  cbn [lift bind app emit].
  destruct (publish_pijuice config pijuice) as [t r]. exact C.
Qed.

(** X17: at most one status message per cycle.  Under every loaded
    configuration the status messages in the log of a run are no more than
    one for the first cycle of the main program and one for every firing
    of the timer; connections and signals add none. *)
Theorem one_status_message_per_cycle
        (node : string) (override : dict) (lib : string) (pijuice : pijuice_io)
        (inputs : list input) :
  (length (filter is_status_publish
             (log (run (dict_merge (default_config node) override) lib
                       (boot (dict_merge (default_config node) override) pijuice)
                       inputs)))
   <= 1 + firings inputs)%nat.
Proof.
  destruct (loaded_period node override) as [period Hp].
  destruct (loaded_hostname node override) as [hostname Hh].
  generalize dependent (dict_merge (default_config node) override). intros config Hp Hh.
  assert (R : forall l p,
             (length (filter is_status_publish (log (run config lib p l)))
              <= length (filter is_status_publish (log p)) + firings l)%nat).
  { induction l as [|i l IH]; intros p; [simpl; lia|].
    change (run config lib p (i :: l)) with (run config lib (step config lib p i) l).
    etransitivity; [apply IH|].
    destruct i as [pj|pj|]; unfold firings; cbn [filter length step].
    - destruct (armed p); try lia.
      cbn [on_timer log]. rewrite filter_app, length_app.
      pose proof (status_count_cycle config pj period hostname Hp Hh). lia.
    - destruct (main_status p); try lia.
      cbn [on_main log]. rewrite filter_app, length_app.
      rewrite (filter_quiet _ _ (never_status_mqtt_on_connect config lib pj)).
      simpl. lia.
    - destruct (main_status p); try lia.
      cbn [on_main log]. rewrite filter_app, length_app.
      rewrite (filter_quiet _ _ (never_status_on_exit config (timer_thread p))).
      simpl. lia. }
  etransitivity; [apply R|].
  unfold boot, on_main, start. cbn [log app].
  pose proof (status_count_main config pijuice period hostname Hp Hh). lia.
Qed.

(** X18: an [expire_after] that [int] accepts, a number or a text of
    digits, goes into every document as that integer.  With the sensors on
    and the metadata of the hat at hand, the four documents are built on
    the base document extended by [expire_after], and each of them holds
    the integer under that key. *)
Theorem expire_after_in_every_document
        (config : dict) (lib : string) (pijuice : pijuice_io)
        (hostname sensor topic capacity version x : value) (ha : dict) (n : Z) :
  dict_get config "hostname" = Some hostname ->
  dict_get config "homeassistant" = Some (VDict ha) ->
  dict_get ha "sensor" = Some sensor ->
  truthy sensor = true ->
  dict_get ha "topic" = Some topic ->
  battery_capacity pijuice = inr capacity ->
  firmware_version pijuice = inr version ->
  dict_get ha "expire_after" = Some x ->
  py_int x = inr n ->
  filter is_autoconfig_publish (trace (mqtt_on_connect config lib pijuice))
  = autoconfig_events topic hostname
      (dict_set (base_payload lib hostname capacity version) "expire_after" (VInt n))
  /\ forall payload,
       In payload (sensor_payloads hostname) ->
       dict_get (dict_merge (dict_set (base_payload lib hostname capacity version)
                                      "expire_after" (VInt n)) payload)
                "expire_after"
       = Some (VInt n).
Proof.
  intros Hh Hha Hs Hon Ht Hc Hf Hx Hn. split.
  - assert (B : with_expire_after ha (base_payload lib hostname capacity version)
                = inr (dict_set (base_payload lib hostname capacity version)
                                "expire_after" (VInt n))).
    { unfold with_expire_after. now rewrite Hx, Hn. }
    unfold mqtt_on_connect, config_item, item, will_set, publish.
    cbn -[autoconfig service_topic]. rewrite Hh, Hha.
    cbn -[autoconfig service_topic]. rewrite Hs.
    cbn -[autoconfig service_topic]. rewrite Hon.
    rewrite (autoconfig_run config lib pijuice hostname topic capacity version ha _
               Hh Hha Ht Hc Hf B).
    cbn [trace fst filter is_autoconfig_publish publish_to autoconfig_events app].
    rewrite service_topic_not_config, !discovery_topic_ends. reflexivity.
  - intros payload H. simpl in H.
    destruct H as [<-|[<-|[<-|[<-|[]]]]]; reflexivity.
Qed.

Lemma expire_after_in_every_document_witness :
  dict_get expires_in_a_minute "hostname" = Some (VStr "raspberrypi")
  /\ py_int (VStr "60") = inr 60
  /\ filter is_autoconfig_publish
       (trace (mqtt_on_connect expires_in_a_minute "1.8" (hat sample)))
     = autoconfig_events (VStr "homeassistant") (VStr "raspberrypi")
         (dict_set (base_payload "1.8" (VStr "raspberrypi") (VInt 1820) (VStr "1.6"))
                   "expire_after" (VInt 60)).
Proof.
  split; [reflexivity|]. split; [reflexivity|].
  apply (expire_after_in_every_document expires_in_a_minute "1.8" (hat sample)
           (VStr "raspberrypi") (VBool true) (VStr "homeassistant") (VInt 1820)
           (VStr "1.6") (VStr "60")
           [("topic", VStr "homeassistant"); ("sensor", VBool true);
            ("expire_after", VStr "60")] 60); reflexivity.
Defined.
